(** * Kinesis review dashboard: sliding-window analytics and shard polling

    A shallow embedding of [123.py]: the class [SlidingWindowAnalyzer]
    (lines 16-98), [get_sentiment] (lines 108-120) and the polling loop of
    [poll_kinesis] (lines 495-602), followed by the properties that the
    specification states about them.

    Conventions of the embedding.
    - A Python [str] is a [string]; the character classes of Python's
      Unicode database and [str.lower] are fields of the class [Unicode].
    - A Python [int] is a [Z]; a count ([len], a [Counter] value) is a [nat].
    - A [datetime] is a [Z], the number of microseconds since an epoch, and
      [timedelta(minutes=m)] is [m * 60000000]; the bounds of the two types
      (years 1 to 9999) are not modelled.  Every call of [datetime.now()] is
      a separate reading of the clock.
    - A [float] is a [pyfloat]: a rational, an infinity or a NaN.  Quotients
      are exact; rounding is not modelled.
    - A [dict] whose keys are fixed by the program is a record of options; a
      [dict] that is iterated over is the list of its items in insertion
      order.
    - [print] appends a [log_entry] to the state; [client.get_records] is an
      oracle whose calls are recorded in the state; [time.sleep] has no
      effect on the state. *)

From Stdlib Require Import ZArith QArith List String Ascii Sorted.
From stdpp Require Import gmap strings list fin_maps pretty sorting.

Set Warnings "-abstract-large-number,-register-all".

Local Open Scope string_scope.
Local Open Scope Z_scope.
Local Open Scope list_scope.

(** ** Python values used by the program *)

Module Py.

(** [float]: finite values as rationals, plus the non-finite ones. *)
Inductive pyfloat :=
| Finite (q : Q)
| Inf (negative : bool)
| NaN.

(** [a > b] and [a < b] on floats; every comparison with NaN is false. *)
Definition float_gt (a b : pyfloat) : bool :=
  match a, b with
  | NaN, _ | _, NaN => false
  | Finite x, Finite y => negb (Qle_bool x y)
  | Finite _, Inf neg => neg
  | Inf neg, Finite _ => negb neg
  | Inf na, Inf nb => negb na && nb
  end.

Definition float_lt (a b : pyfloat) : bool := float_gt b a.

(** The double nearest to the literal [0.1]. *)
Definition float_0_1 : Q := 3602879701896397 # 36028797018963968.

(** Character data of the interpreter: [str.isalnum], [str.isspace] and
    [str.isdigit] on one character and [str.lower] on a string.  The regular
    expression classes are built from them: [\s] is [isspace] and [\w] is
    [isalnum] or the underscore. *)
Class Unicode := {
  isalnum : ascii -> bool;
  isspace : ascii -> bool;
  isdigit : ascii -> bool;
  lower : string -> string;
  isspace_space : isspace " "%char = true
}.

(** Truthiness of a [str]. *)
Definition str_truthy (s : string) : bool :=
  match s with EmptyString => false | String _ _ => true end.

Fixpoint str_map (f : ascii -> ascii) (s : string) : string :=
  match s with
  | EmptyString => EmptyString
  | String c s' => String (f c) (str_map f s')
  end.

Fixpoint str_forall (p : ascii -> bool) (s : string) : bool :=
  match s with
  | EmptyString => true
  | String c s' => p c && str_forall p s'
  end.

Section Strings.
Context {U : Unicode}.

(** [\w] of [re] on [str] patterns. *)
Definition re_word (c : ascii) : bool := isalnum c || Ascii.eqb c "_"%char.

(** [re.sub(r'[^\w\s]', ' ', text)]. *)
Definition re_sub_not_word_space (text : string) : string :=
  str_map (fun c => if re_word c || isspace c then c else " "%char) text.

(** [str.split()] without arguments: the maximal runs of characters that are
    not whitespace.  [word] is the run being read. *)
Fixpoint split_from (word : string) (s : string) : list string :=
  match s with
  | EmptyString => if str_truthy word then [word] else []
  | String c s' =>
      if isspace c
      then (if str_truthy word then word :: split_from EmptyString s'
            else split_from EmptyString s')
      else split_from (word +:+ String c EmptyString) s'
  end.

Definition str_split (s : string) : list string := split_from EmptyString s.

(** [str.isdigit()]: not empty and every character a digit. *)
Definition str_isdigit (s : string) : bool :=
  str_truthy s && str_forall isdigit s.

End Strings.

(** [' '.join(l)]. *)
Definition str_join (sep : string) (l : list string) : string :=
  String.concat sep l.

(** [collections.Counter] as its items in insertion order: a key enters at
    its first occurrence and keeps that place. *)
Fixpoint counter_incr {K} `{EqDecision K} (k : K) (c : list (K * nat))
  : list (K * nat) :=
  match c with
  | [] => [(k, 1%nat)]
  | (k', n) :: c' =>
      if decide (k' = k) then (k', S n) :: c' else (k', n) :: counter_incr k c'
  end.

Definition Counter {K} `{EqDecision K} (l : list K) : list (K * nat) :=
  fold_left (fun c k => counter_incr k c) l [].

(** [counter.get(k, 0)]. *)
Fixpoint counter_get {K} `{EqDecision K} (k : K) (c : list (K * nat)) : nat :=
  match c with
  | [] => 0%nat
  | (k', n) :: c' => if decide (k' = k) then n else counter_get k c'
  end.

(** [sorted(items, key=itemgetter(1), reverse=True)]: a stable sort, so that
    items of equal count keep their relative order. *)
Fixpoint insert_desc {K} (x : K * nat) (l : list (K * nat)) : list (K * nat) :=
  match l with
  | [] => [x]
  | y :: l' =>
      if (snd y <=? snd x)%nat then x :: y :: l' else y :: insert_desc x l'
  end.

Fixpoint sorted_desc {K} (l : list (K * nat)) : list (K * nat) :=
  match l with
  | [] => []
  | x :: l' => insert_desc x (sorted_desc l')
  end.

(** [counter.most_common(n)] is [heapq.nlargest(n, items, key=itemgetter(1))],
    which the library defines as [sorted(items, key=..., reverse=True)[:n]];
    it is empty for [n <= 0]. *)
Definition most_common {K} (n : Z) (c : list (K * nat)) : list (K * nat) :=
  take (Z.to_nat n) (sorted_desc c).

(** [collections.deque(maxlen=...)]. *)
Record deque (A : Type) := Deque { maxlen : nat; items : list A }.
Arguments Deque {A} _ _.
Arguments maxlen {A} _.
Arguments items {A} _.

(** [deque.append(x)]: the item is added on the right and, when the deque
    is then longer than [maxlen], one item is discarded on the left. *)
Definition deque_append {A} (x : A) (d : deque A) : deque A :=
  let l := items d ++ [x] in
  Deque (maxlen d) (if (maxlen d <? length l)%nat then drop 1 l else l).

End Py.
Import Py.

(** ** The sliding-window analyzer (lines 16-98) *)

Module Analyzer.

(** The message dictionaries: the keys that [poll_kinesis] stores (lines
    548-555) and the one that [add_message] adds.  A key that is absent from
    the dictionary is [None]. *)
Record message := Message {
  text : option string;
  sentiment : option string;
  polarity : option pyfloat;
  full_text : option string;
  timestamp : option string;
  word_count : option Z;
  actual_timestamp : option Z
}.

Definition set_actual_timestamp (now : Z) (m : message) : message :=
  {| text := text m; sentiment := sentiment m; polarity := polarity m;
     full_text := full_text m; timestamp := timestamp m;
     word_count := word_count m; actual_timestamp := Some now |}.

(** The object: its only attribute is [all_messages]. *)
Record SlidingWindowAnalyzer := Analyzer { all_messages : deque message }.

(** [__init__] (lines 17-18). *)
Definition init : SlidingWindowAnalyzer := Analyzer (Deque 10000 []).

(** [add_message] (lines 20-23); [now] is the reading of the clock. *)
Definition add_message (now : Z) (message_data : message)
    (self : SlidingWindowAnalyzer) : SlidingWindowAnalyzer :=
  Analyzer (deque_append (set_actual_timestamp now message_data)
                         (all_messages self)).

(** [timedelta(minutes=minutes)] in microseconds. *)
Definition timedelta_minutes (minutes : Z) : Z := minutes * 60000000.

(** The comprehension of lines 28-29 from position [i] on.  The default of
    [msg.get] is evaluated for every message, so the message at position [i]
    makes the clock reading [clock (S i)]. *)
Fixpoint window_from (clock : nat -> Z) (cutoff_time : Z) (i : nat)
    (msgs : list message) : list message :=
  match msgs with
  | [] => []
  | msg :: rest =>
      let ts := default (clock (S i)) (actual_timestamp msg) in
      if cutoff_time <? ts
      then msg :: window_from clock cutoff_time (S i) rest
      else window_from clock cutoff_time (S i) rest
  end.

(** [get_messages_in_window] (lines 25-29); [clock 0] is the reading made
    for [cutoff_time]. *)
Definition get_messages_in_window (clock : nat -> Z) (minutes : Z)
    (self : SlidingWindowAnalyzer) : list message :=
  let cutoff_time := clock 0%nat - timedelta_minutes minutes in
  window_from clock cutoff_time 0 (items (all_messages self)).

(** The literal of lines 81-90. *)
Definition stop_words : list string :=
  [ "the"; "a"; "an"; "and"; "or"; "but"; "in"; "on"; "at"; "to"; "for"; "of";
    "with"; "by"; "is"; "are"; "was"; "were"; "be"; "been"; "have"; "has"; "had";
    "do"; "does"; "did"; "will"; "would"; "could"; "should"; "this"; "that";
    "these"; "those"; "i"; "me"; "my"; "myself"; "we"; "our"; "ours"; "ourselves";
    "you"; "your"; "yours"; "yourself"; "yourselves"; "he"; "him"; "his"; "himself";
    "she"; "her"; "hers"; "herself"; "it"; "its"; "itself"; "they"; "them"; "their";
    "theirs"; "themselves"; "what"; "which"; "who"; "whom"; "whose"; "why"; "how";
    "where"; "when"; "so"; "than"; "too"; "very"; "can"; "just"; "now"; "also" ].

Section Words.
Context {U : Unicode}.

(** The condition of the comprehension of lines 93-96. *)
Definition keep_word (word : string) : bool :=
  (2 <? String.length word)%nat
  && negb (bool_decide (word ∈ stop_words))
  && negb (str_isdigit word).

(** [_extract_words] (lines 72-98). *)
Definition _extract_words (text : string) : list string :=
  let text := re_sub_not_word_space (lower text) in
  let words := str_split text in
  List.filter keep_word words.

(** [get_top_words] (lines 31-46). *)
Definition get_top_words (clock : nat -> Z) (minutes : Z) (top_n : Z)
    (self : SlidingWindowAnalyzer) : list (string * nat) :=
  let messages_in_window := get_messages_in_window clock minutes self in
  match messages_in_window with
  | [] => []
  | _ =>
      let all_text :=
        str_join " " (map (fun msg => default "" (full_text msg))
                          messages_in_window) in
      let words := _extract_words all_text in
      let word_counts := Counter words in
      most_common top_n word_counts
  end.

End Words.

(** [get_sentiment_stats] (lines 48-63); the result is the dictionary. *)
Definition get_sentiment_stats (clock : nat -> Z) (minutes : Z)
    (self : SlidingWindowAnalyzer) : gmap string nat :=
  let messages_in_window := get_messages_in_window clock minutes self in
  match messages_in_window with
  | [] =>
      <["positive" := 0%nat]> (<["negative" := 0%nat]>
        (<["neutral" := 0%nat]> (<["total" := 0%nat]> ∅)))
  | _ =>
      let sentiments :=
        map (fun msg => default "Neutral" (sentiment msg)) messages_in_window in
      let sentiment_counts := Counter sentiments in
      <["positive" := counter_get "Positive" sentiment_counts]>
        (<["negative" := counter_get "Negative" sentiment_counts]>
          (<["neutral" := counter_get "Neutral" sentiment_counts]>
            (<["total" := length messages_in_window]> ∅)))
  end.

(** [a / b] on integers: the quotient as a float, or [ZeroDivisionError]. *)
Definition truediv (a b : Z) : option Q :=
  if b =? 0 then None else Some (inject_Z a / inject_Z b)%Q.

(** [get_message_rate] (lines 65-70); [None] is an uncaught
    [ZeroDivisionError]. *)
Definition get_message_rate (clock : nat -> Z) (minutes : Z)
    (self : SlidingWindowAnalyzer) : option Q :=
  let messages_in_window := get_messages_in_window clock minutes self in
  if match messages_in_window with [] => true | _ => false end
     || (minutes =? 0)
  then Some 0%Q
  else truediv (Z.of_nat (length messages_in_window)) minutes.

End Analyzer.

(** ** The polling loop of [poll_kinesis] (lines 495-602) *)

Module Poller.
Import Analyzer.

(** A [dict] with its items in insertion order. *)
Section Dict.
Context {K V : Type} `{EqDecision K}.

Fixpoint dict_get (k : K) (d : list (K * V)) : option V :=
  match d with
  | [] => None
  | (k', v) :: d' => if decide (k' = k) then Some v else dict_get k d'
  end.

(** [d[k] = v]: an existing key keeps its place, a new one goes last. *)
Fixpoint dict_set (k : K) (v : V) (d : list (K * V)) : list (K * V) :=
  match d with
  | [] => [(k, v)]
  | (k', v') :: d' =>
      if decide (k' = k) then (k', v) :: d' else (k', v') :: dict_set k v d'
  end.

(** [del d[k]] for a key that is present. *)
Definition dict_del (k : K) (d : list (K * V)) : list (K * V) :=
  List.filter (fun kv => negb (bool_decide (fst kv = k))) d.

Definition dict_keys (d : list (K * V)) : list K := map fst d.

End Dict.

(** The values that [json.loads] returns. *)
Inductive json :=
| JNull
| JBool (b : bool)
| JInt (z : Z)
| JFloat (f : pyfloat)
| JStr (s : string)
| JArr (l : list json)
| JObj (o : gmap string json).

(** Truthiness, as [if review_text:] tests it. *)
Definition json_truthy (j : json) : bool :=
  match j with
  | JNull => false
  | JBool b => b
  | JInt z => negb (z =? 0)
  | JFloat (Finite q) => negb (Qeq_bool q 0)
  | JFloat _ => true
  | JStr s => str_truthy s
  | JArr l => match l with [] => false | _ => true end
  | JObj o => negb (size o =? 0)%nat
  end.

(** The library functions that the loop calls.  [None] stands for the
    exception the function raises: [UnicodeDecodeError] for
    [bytes.decode("utf-8")], [json.JSONDecodeError] for [json.loads], any
    exception for [TextBlob(...).sentiment.polarity].  [strftime] is
    [strftime('%H:%M:%S')] of a reading of the clock. *)
Class Library := {
  utf8_decode : list Byte.byte -> option string;
  json_loads : string -> option json;
  textblob_polarity : string -> option pyfloat;
  strftime : Z -> string
}.

(** [record["Data"]]: [bytes], or another object given by its [str()]. *)
Inductive record_data :=
| Bytes (b : list Byte.byte)
| NotBytes (str_of : string).

(** A record of a [get_records] response; [Data = None] is a record without
    that key. *)
Record record := Rec { Data : option record_data }.

(** What [client.get_records] does: it raises, or it returns a response with
    [NextShardIterator] ([None] when the key is absent or null) and
    [Records]. *)
Inductive get_records_result :=
| Raises (e : string)
| Response (NextShardIterator : option string) (Records : list record).

(** The lines that the loop prints, one constructor for each [print]. *)
Inductive log_entry :=
| LogNoMoreIterator (shard_id : string)                 (* line 512 *)
| LogReceived (n : nat) (shard_id : string)             (* line 521 *)
| LogRawData (shard_id decoded_data : string)           (* line 533 *)
| LogParsedJson (parsed : json)                         (* line 538 *)
| LogAddedReview (total : Z) (sentiment text : string)  (* line 564 *)
| LogNoTextField                                        (* line 567 *)
| LogJsonDecodeError                                    (* line 570 *)
| LogRawDataWas (decoded_data : string)                 (* line 571 *)
| LogRecordError (shard_id : string)                    (* line 574 *)
| LogRecordData (r : record)                            (* line 575 *)
| LogFetchError (shard_id : string)                     (* line 578 *)
| LogNoNewRecords                                       (* line 585 *)
| LogStillWaiting                                       (* line 587 *)
| LogNoMoreActive.                                      (* line 592 *)

(** The globals and locals of [poll_kinesis], the output, the calls of
    [get_records] made so far (shard and iterator) and the number of clock
    readings made so far. *)
Record state := State {
  shard_iterators : list (string * string);
  reviews : list message;
  window_analyzer : SlidingWindowAnalyzer;
  total_reviews : Z;
  status_message : string;
  records_found : bool;
  consecutive_empty_responses : Z;
  stdout : list log_entry;
  requests : list (string * string);
  clock_reads : nat
}.

Definition set_shard_iterators (d : list (string * string)) (st : state) :=
  State d (reviews st) (window_analyzer st) (total_reviews st)
    (status_message st) (records_found st) (consecutive_empty_responses st)
    (stdout st) (requests st) (clock_reads st).

Definition set_records_found (b : bool) (st : state) :=
  State (shard_iterators st) (reviews st) (window_analyzer st)
    (total_reviews st) (status_message st) b (consecutive_empty_responses st)
    (stdout st) (requests st) (clock_reads st).

Definition set_consecutive_empty_responses (n : Z) (st : state) :=
  State (shard_iterators st) (reviews st) (window_analyzer st)
    (total_reviews st) (status_message st) (records_found st) n
    (stdout st) (requests st) (clock_reads st).

Definition set_status_message (s : string) (st : state) :=
  State (shard_iterators st) (reviews st) (window_analyzer st)
    (total_reviews st) s (records_found st) (consecutive_empty_responses st)
    (stdout st) (requests st) (clock_reads st).

(** [print(...)]. *)
Definition print (e : log_entry) (st : state) :=
  State (shard_iterators st) (reviews st) (window_analyzer st)
    (total_reviews st) (status_message st) (records_found st)
    (consecutive_empty_responses st) (stdout st ++ [e]) (requests st)
    (clock_reads st).

(** A call of [client.get_records] enters the trace. *)
Definition request (shard_id shard_iterator : string) (st : state) :=
  State (shard_iterators st) (reviews st) (window_analyzer st)
    (total_reviews st) (status_message st) (records_found st)
    (consecutive_empty_responses st) (stdout st)
    (requests st ++ [(shard_id, shard_iterator)]) (clock_reads st).

(** One reading of the clock. *)
Definition tick (st : state) :=
  State (shard_iterators st) (reviews st) (window_analyzer st)
    (total_reviews st) (status_message st) (records_found st)
    (consecutive_empty_responses st) (stdout st) (requests st)
    (S (clock_reads st)).

(** Lines 558-563: the review enters [reviews] and the analyzer and is
    counted.  [add_message] writes ['actual_timestamp'] into the very
    dictionary that [reviews] holds, so both see it. *)
Definition store_review (now : Z) (review_obj : message) (st : state) :=
  State (shard_iterators st)
    (reviews st ++ [set_actual_timestamp now review_obj])
    (add_message now review_obj (window_analyzer st))
    (total_reviews st + 1) (status_message st) (records_found st)
    (consecutive_empty_responses st) (stdout st) (requests st)
    (clock_reads st).

Section Loop.
Context {U : Unicode} {L : Library}.

(** The environment of a run: [clock i] is reading number [i] of the clock
    and [client i it] is the outcome of call number [i] of
    [client.get_records(ShardIterator=it, Limit=100)]. *)
Variable clock : nat -> Z.
Variable client : nat -> string -> get_records_result.

(** [get_sentiment] (lines 108-120). *)
Definition get_sentiment (text : string) : string * pyfloat :=
  match textblob_polarity text with
  | Some polarity =>
      if float_gt polarity (Finite float_0_1) then ("Positive", polarity)
      else if float_lt polarity (Finite (- float_0_1)) then ("Negative", polarity)
      else ("Neutral", polarity)
  | None => ("Neutral", Finite 0)
  end.

(** Lines 526-531. *)
Definition decode (r : record) : option string :=
  match Data r with
  | None => None                        (* KeyError *)
  | Some (Bytes b) => utf8_decode b     (* UnicodeDecodeError *)
  | Some (NotBytes s) => Some s
  end.

(** The handler of lines 573-575. *)
Definition record_error (shard_id : string) (r : record) (st : state) : state :=
  print (LogRecordData r) (print (LogRecordError shard_id) st).

(** Lines 544-565, for a text that is a non-empty [str]. *)
Definition add_review (review_text : string) (st : state) : state :=
  let '(sentiment, polarity) := get_sentiment review_text in
  let now_obj := clock (clock_reads st) in
  let st := tick st in
  let review_obj :=
    {| text := Some review_text;
       sentiment := Some sentiment;
       polarity := Some polarity;
       full_text := Some review_text;
       timestamp := Some (strftime now_obj);
       word_count := Some (Z.of_nat (length (str_split review_text)));
       actual_timestamp := None |} in
  let now_add := clock (clock_reads st) in
  let st := store_review now_add review_obj (tick st) in
  let st :=
    print (LogAddedReview (total_reviews st) sentiment
                          (substring 0 100 review_text)) st in
  let now_status := clock (clock_reads st) in
  set_status_message
    ("Active - Records: " +:+ pretty (total_reviews st) +:+ " - Last: "
     +:+ strftime now_status +:+ " - Sentiment: " +:+ sentiment)
    (tick st).

(** The body of the loop over [records] (lines 524-575). *)
Definition process_record (shard_id : string) (r : record) (st : state)
  : state :=
  match decode r with
  | None => record_error shard_id r st
  | Some decoded_data =>
      let st := print (LogRawData shard_id decoded_data) st in
      match json_loads decoded_data with
      | None =>
          print (LogRawDataWas decoded_data) (print LogJsonDecodeError st)
      | Some parsed =>
          let st := print (LogParsedJson parsed) st in
          match parsed with
          | JObj o =>
              let review_text := default (JStr "") (o !! "text") in
              if json_truthy review_text then
                match review_text with
                | JStr s => add_review s st
                | _ =>
                    (* [get_sentiment] has no effect; the dictionary display
                       reads the clock for ['timestamp'] and then
                       [review_text.split()] raises AttributeError *)
                    record_error shard_id r (tick st)
                end
              else print LogNoTextField st
          | _ => record_error shard_id r st   (* no attribute [get] *)
          end
      end
  end.

(** Truthiness of [response.get("NextShardIterator")]. *)
Definition iterator_truthy (it : option string) : bool :=
  match it with Some s => str_truthy s | None => false end.

(** The body of the loop over the shards (lines 501-579). *)
Definition poll_shard (shard_id shard_iterator : string) (st : state)
  : state :=
  if negb (str_truthy shard_iterator) then st
  else
    let response := client (length (requests st)) shard_iterator in
    let st := request shard_id shard_iterator st in
    match response with
    | Raises e => print (LogFetchError shard_id) st
    | Response new_iterator records =>
        if iterator_truthy new_iterator then
          let st :=
            set_shard_iterators
              (dict_set shard_id (default "" new_iterator) (shard_iterators st))
              st in
          match records with
          | [] => st
          | _ =>
              let st :=
                set_consecutive_empty_responses 0 (set_records_found true st) in
              let st := print (LogReceived (length records) shard_id) st in
              fold_left (fun s r => process_record shard_id r s) records st
          end
        else
          let st := print (LogNoMoreIterator shard_id) st in
          match dict_get shard_id (shard_iterators st) with
          | Some _ =>
              set_shard_iterators (dict_del shard_id (shard_iterators st)) st
          | None => print (LogFetchError shard_id) st   (* KeyError *)
          end
    end.

Definition max_empty_responses : Z := 10.

(** Lines 581-588. *)
Definition count_empty_cycle (st : state) : state :=
  if records_found st then st
  else
    let st :=
      set_consecutive_empty_responses (consecutive_empty_responses st + 1) st in
    if consecutive_empty_responses st =? 1 then print LogNoNewRecords st
    else if max_empty_responses <=? consecutive_empty_responses st
    then set_consecutive_empty_responses 0 (print LogStillWaiting st)
    else st.

(** One turn of [while True] (lines 496-602); the flag tells whether the
    loop was left by [break].  The shards are visited in the order of
    [list(shard_iterators.items())], taken when the turn starts. *)
Definition poll_cycle (st : state) : state * bool :=
  let st := set_records_found false st in
  let st :=
    fold_left (fun s '(shard_id, shard_iterator) =>
                 poll_shard shard_id shard_iterator s)
              (shard_iterators st) st in
  let st := count_empty_cycle st in
  match shard_iterators st with
  | [] =>
      (set_status_message "All shards exhausted" (print LogNoMoreActive st),
       true)
  | _ => (st, false)
  end.

(** At most [cycles] turns of the loop. *)
Fixpoint poll_loop (cycles : nat) (st : state) : state * bool :=
  match cycles with
  | O => (st, false)
  | S n =>
      let '(st', stop) := poll_cycle st in
      if stop then (st', true) else poll_loop n st'
  end.

End Loop.

(** Lines 468-489: the iterators obtained at start-up, in the order of the
    shards; [None] is a shard for which [get_shard_iterator] raised. *)
Definition initial_iterators (shards : list (string * option string))
  : list (string * string) :=
  fold_left (fun d '(shard_id, it) =>
               match it with Some i => dict_set shard_id i d | None => d end)
            shards [].

(** The state when the loop is entered (lines 100-106 and 489-493). *)
Definition initial_state (shards : list (string * option string)) : state :=
  {| shard_iterators := initial_iterators shards;
     reviews := [];
     window_analyzer := init;
     total_reviews := 0;
     status_message := "Connected - Listening for records from all shards...";
     records_found := false;
     consecutive_empty_responses := 0;
     stdout := [];
     requests := [];
     clock_reads := 0 |}.

End Poller.

(** ** Sequences of operations and concrete environments *)

(** A sequence of calls of [add_message], each with its clock reading. *)
Definition add_messages (events : list (Z * Analyzer.message))
    (self : Analyzer.SlidingWindowAnalyzer) : Analyzer.SlidingWindowAnalyzer :=
  fold_left (fun s '(now, m) => Analyzer.add_message now m s) events self.

(** The part of the state that a record can reach: the store, the list of
    reviews and the total. *)
Definition ingested (st : Poller.state)
  : Analyzer.SlidingWindowAnalyzer * list Analyzer.message * Z :=
  (Poller.window_analyzer st, Poller.reviews st, Poller.total_reviews st).

(** The lines printed between two states. *)
Definition printed (st st' : Poller.state) : list Poller.log_entry :=
  drop (length (Poller.stdout st)) (Poller.stdout st').

(** The calls of [get_records] made between two states. *)
Definition requested (st st' : Poller.state) : list (string * string) :=
  drop (length (Poller.requests st)) (Poller.requests st').

Module Ascii7.

Definition code (c : ascii) : N := N_of_ascii c.

Definition between (lo hi : N) (c : ascii) : bool :=
  ((lo <=? code c) && (code c <=? hi))%N.

(** Python's character data on the ASCII characters; the other characters
    are put in no class and are left alone by [lower]. *)
Definition ascii_isdigit (c : ascii) : bool := between 48 57 c.

Definition ascii_isalnum (c : ascii) : bool :=
  between 48 57 c || between 65 90 c || between 97 122 c.

Definition ascii_isspace (c : ascii) : bool :=
  between 9 13 c || between 28 32 c.

Definition ascii_lower_char (c : ascii) : ascii :=
  if between 65 90 c then ascii_of_N (code c + 32) else c.

#[export] Instance ascii_unicode : Unicode :=
  {| isalnum := ascii_isalnum;
     isspace := ascii_isspace;
     isdigit := ascii_isdigit;
     lower := str_map ascii_lower_char;
     isspace_space := eq_refl |}.

(** The double quote. *)
Definition dq : string := String (ascii_of_nat 34) EmptyString.

(** The JSON text of an object with the one key [text]. *)
Definition text_object (s : string) : string :=
  "{" +:+ dq +:+ "text" +:+ dq +:+ ": " +:+ dq +:+ s +:+ dq +:+ "}".

(** A library whose [json.loads] knows the documents of a table, whose
    [utf-8] codec accepts the ASCII bytes and whose classifier is given by a
    table. *)
Definition table_library (documents : list (string * Poller.json))
    (polarities : list (string * pyfloat)) : Poller.Library :=
  {| Poller.utf8_decode := fun b =>
       if forallb (fun x => (Byte.to_N x <? 128)%N) b
       then Some (string_of_list_ascii (map ascii_of_byte b))
       else None;
     Poller.json_loads := fun s => Poller.dict_get s documents;
     Poller.textblob_polarity := fun s =>
       Some (default (Finite 0) (Poller.dict_get s polarities));
     Poller.strftime := fun _ => "12:00:00" |}.

Definition documents : list (string * Poller.json) :=
  [ ("{}", Poller.JObj ∅);
    (text_object "", Poller.JObj (<["text" := Poller.JStr ""]> ∅));
    (text_object "great service",
     Poller.JObj (<["text" := Poller.JStr "great service"]> ∅)) ].

Definition library : Poller.Library :=
  table_library documents [("great service", Finite (4 # 5))].

Definition empty_state : Poller.state := Poller.initial_state [].

Definition no_message : Analyzer.message :=
  Analyzer.Message None None None None None None None.

(** A stored message with a text, a label and a time of arrival. *)
Definition stored (t : string) (label : option string) (at_ : Z)
  : Analyzer.message :=
  Analyzer.Message (Some t) label None (Some t) None None (Some at_).

(** A record whose data are the bytes of an ASCII text. *)
Definition body (s : string) : Poller.record :=
  Poller.Rec (Some (Poller.Bytes (list_byte_of_string s))).

(** A clock that stands still. *)
Definition noon : nat -> Z := fun _ => 43200000000.

(** A run over two shards. *)
Definition two_shards : Poller.state :=
  Poller.initial_state [("shard-0", Some "it-0"); ("shard-1", Some "it-1")].

(** A source whose every response is the last of its shard and carries one
    review. *)
Definition final_batch : nat -> string -> Poller.get_records_result :=
  fun _ _ =>
    Poller.Response None [body (text_object "great service")].

(** A source that returns the same batch with a next iterator. *)
Definition open_batch : nat -> string -> Poller.get_records_result :=
  fun _ _ =>
    Poller.Response (Some "it-next") [body (text_object "great service")].

(** A source that fails for the iterator [it-0] and has nothing new for the
    others. *)
Definition flaky : nat -> string -> Poller.get_records_result :=
  fun _ it =>
    if String.eqb it "it-0" then Poller.Raises "timeout"
    else Poller.Response (Some "it-2") [].

End Ascii7.

(** ** Vocabulary of the properties *)

(** What the store holds of an event: the message with its time of
    arrival written into it. *)
Definition stamped (e : Z * Analyzer.message) : Analyzer.message :=
  Analyzer.set_actual_timestamp (fst e) (snd e).

(** The number of messages of a window whose label satisfies [p]. *)
Definition count_label (p : option string -> bool)
    (window : list Analyzer.message) : nat :=
  length (List.filter (fun m => p (Analyzer.sentiment m)) window).

Definition label_is (l : string) (o : option string) : bool :=
  bool_decide (o = Some l).

(** A label that [get_sentiment_stats] files under ['neutral']: the key is
    missing or its value is ['Neutral']. *)
Definition label_neutral (o : option string) : bool :=
  bool_decide (o = None) || label_is "Neutral" o.

(** A label that is none of the three. *)
Definition label_unknown (o : option string) : bool :=
  match o with
  | None => false
  | Some l =>
      negb (bool_decide (l = "Positive" \/ l = "Negative" \/ l = "Neutral"))
  end.

(** The number of occurrences of [k] in [l]. *)
Definition occurrences {K} `{EqDecision K} (k : K) (l : list K) : nat :=
  length (List.filter (fun x => bool_decide (x = k)) l).



Section SpecWords.
Context {U : Unicode}.



End SpecWords.





(** Ten reviews about pizza and two about sushi, all within the window. *)
Definition pizza_store : Analyzer.SlidingWindowAnalyzer :=
  add_messages
    (replicate 10 (400000000, Ascii7.stored "I had PIZZA!" None 0)
     ++ replicate 2 (400000000, Ascii7.stored "The sushi was OK." None 0))
    Analyzer.init.

(** A state without its output. *)
Definition silent (st : Poller.state) : Poller.state :=
  Poller.State (Poller.shard_iterators st) (Poller.reviews st)
    (Poller.window_analyzer st) (Poller.total_reviews st)
    (Poller.status_message st) (Poller.records_found st)
    (Poller.consecutive_empty_responses st) [] (Poller.requests st)
    (Poller.clock_reads st).

(** The records of a batch are processed in order (lines 523-575). *)
Definition process_records {U : Unicode} {L : Poller.Library}
    (clock : nat -> Z) (shard_id : string) (records : list Poller.record)
    (st : Poller.state) : Poller.state :=
  fold_left (fun s r => Poller.process_record clock shard_id r s) records st.

(** An iterator that is polled: line 501 skips the others. *)
Definition polled (kv : string * string) : bool := str_truthy (snd kv).

(** The shards of a snapshot are polled in order (lines 500-579). *)
Definition poll_shards {U : Unicode} {L : Poller.Library} (clock : nat -> Z)
    (client : nat -> string -> Poller.get_records_result)
    (snapshot : list (string * string)) (st : Poller.state) : Poller.state :=
  fold_left (fun s '(shard_id, shard_iterator) =>
               Poller.poll_shard clock client shard_id shard_iterator s)
            snapshot st.

Section Outcomes.
Context {U : Unicode} {L : Poller.Library}.
Variable clock : nat -> Z.

(** The state of [poll_shard] once a response with a next iterator has been
    received: the iterator is stored and the records are processed. *)
Definition advanced (shard_id it nxt : string)
    (records : list Poller.record) (s : Poller.state) : Poller.state :=
  let s1 :=
    Poller.set_shard_iterators
      (Poller.dict_set shard_id nxt (Poller.shard_iterators s))
      (Poller.request shard_id it s) in
  match records with
  | [] => s1
  | _ =>
      process_records clock shard_id records
        (Poller.print (Poller.LogReceived (length records) shard_id)
           (Poller.set_consecutive_empty_responses 0
              (Poller.set_records_found true s1)))
  end.

(** The state of [poll_shard] once a response without a next iterator has
    been received: the records are not looked at. *)
Definition exhausted (shard_id it : string) (s : Poller.state)
  : Poller.state :=
  let s1 :=
    Poller.print (Poller.LogNoMoreIterator shard_id)
                 (Poller.request shard_id it s) in
  match Poller.dict_get shard_id (Poller.shard_iterators s) with
  | Some _ =>
      Poller.set_shard_iterators
        (Poller.dict_del shard_id (Poller.shard_iterators s)) s1
  | None => Poller.print (Poller.LogFetchError shard_id) s1
  end.

End Outcomes.

(** The state at the end of a turn, before the test of line 591. *)
Definition turn {U : Unicode} {L : Poller.Library} (clock : nat -> Z)
    (client : nat -> string -> Poller.get_records_result)
    (st : Poller.state) : Poller.state :=
  Poller.count_empty_cycle
    (poll_shards clock client (Poller.shard_iterators st)
       (Poller.set_records_found false st)).

(** A character that [split] keeps. *)
Definition not_space {U : Unicode} (c : ascii) : bool := negb (isspace c).

(** ** Vocabulary of the pipeline *)

(** The text under which a record is ingested, if it is: the record decodes,
    its body is a JSON object, and the value of ["text"] is a [str] that is
    not empty (lines 526-543 and 554). *)
Definition review_text {L : Poller.Library} (r : Poller.record)
  : option string :=
  match Poller.decode r with
  | Some decoded_data =>
      match Poller.json_loads decoded_data with
      | Some (Poller.JObj o) =>
          match o !! "text" with
          | Some (Poller.JStr s) => if str_truthy s then Some s else None
          | _ => None
          end
      | _ => None
      end
  | None => None
  end.

(** The three labels of [get_sentiment]. *)
Definition known_label (o : option string) : bool :=
  label_is "Positive" o || label_is "Negative" o || label_is "Neutral" o.

(** A review as [poll_kinesis] builds and stores it: a text that is not
    empty, under ['text'] and ['full_text'], one of the three labels, a
    score, a display time, a word count, and the time of arrival that
    [add_message] wrote. *)
Definition stored_review (m : Analyzer.message) : Prop :=
  (exists s, Analyzer.text m = Some s /\ Analyzer.full_text m = Some s
             /\ str_truthy s = true)
  /\ known_label (Analyzer.sentiment m) = true
  /\ is_Some (Analyzer.polarity m)
  /\ is_Some (Analyzer.timestamp m)
  /\ is_Some (Analyzer.word_count m)
  /\ is_Some (Analyzer.actual_timestamp m).

(** The list of reviews, the total and the store agree: the total is the
    number of reviews, and the store holds the last 10000 of them in the
    order of the list. *)
Definition in_step (i : Analyzer.SlidingWindowAnalyzer
                        * list Analyzer.message * Z) : Prop :=
  let '(analyzer, reviews, total) := i in
  total = Z.of_nat (length reviews)
  /\ maxlen (Analyzer.all_messages analyzer) = 10000%nat
  /\ items (Analyzer.all_messages analyzer)
     = drop (length reviews - 10000) reviews
  /\ Forall stored_review reviews.

(** The review that [add_review] builds. *)
Definition review_of {U : Unicode} {L : Poller.Library} (s : string)
    (now_obj now_add : Z)
  : Analyzer.message :=
  {| Analyzer.text := Some s;
     Analyzer.sentiment := Some (fst (Poller.get_sentiment s));
     Analyzer.polarity := Some (snd (Poller.get_sentiment s));
     Analyzer.full_text := Some s;
     Analyzer.timestamp := Some (Poller.strftime now_obj);
     Analyzer.word_count := Some (Z.of_nat (length (str_split s)));
     Analyzer.actual_timestamp := Some now_add |}.

(** The counter is in range, and it is 0 when the flag is set. *)
Definition waiting_ok (s : Poller.state) : Prop :=
  0 <= Poller.consecutive_empty_responses s < Poller.max_empty_responses
  /\ (Poller.records_found s = true -> Poller.consecutive_empty_responses s = 0).


(** ** The producer script ([mapreduce_stream_kinesis.py], lines 16-36) *)

Module Producer.

(** [json.dumps({"text": review})] and the UTF-8 encoding that the client
    applies to a [str] payload. *)
Class Serializer := {
  dumps_text : string -> string;
  utf8_encode : string -> list Byte.byte
}.

(** The lines that the script prints. *)
Inductive line :=
| LineFetching                      (* line 16 *)
| LineLoaded (rows : nat)           (* line 19 *)
| LineStreaming (batch_size : nat)  (* line 27 *)
| LineBatchSent (number : nat)      (* line 33 *)
| LineComplete.                     (* line 36 *)

(** The payloads that [put_record] accepted, the output, and the exception
    that ended the script, if one did. *)
Record state := State {
  puts : list string;
  stdout : list line;
  raised : option string
}.

Definition print (l : line) (st : state) : state :=
  State (puts st) (stdout st ++ [l]) (raised st).

(** [range(0, stop, step)] for a positive [step], value by value; [fuel]
    bounds the number of values. *)
Fixpoint range_from (fuel i stop step : nat) : list nat :=
  match fuel with
  | O => []
  | S fuel' =>
      if (i <? stop)%nat then i :: range_from fuel' (i + step) stop step
      else []
  end.

Definition range (stop step : nat) : list nat := range_from stop 0 stop step.

(** [l[i:j]] for [0 <= i <= j]. *)
Definition slice {A} (l : list A) (i j : nat) : list A :=
  take (j - i) (drop i l).

Section Script.
Context {S : Serializer}.

(** [put i payload] is what call number [i] of [kinesis.put_record] does
    with this payload: [None] when it returns, the exception when it
    raises. *)
Variable put : nat -> string -> option string.

(** Lines 31-32 for one review; nothing runs once an exception is on its
    way. *)
Definition put_review (st : state) (review : string) : state :=
  match raised st with
  | Some _ => st
  | None =>
      let payload := dumps_text review in
      match put (length (puts st)) payload with
      | None => State (puts st ++ [payload]) (stdout st) None
      | Some e => State (puts st) (stdout st) (Some e)
      end
  end.

Definition batch_size : nat := 50.

(** The body of the loop of line 28 for the index [i]. *)
Definition send_batch (records : list string) (st : state) (i : nat)
  : state :=
  match raised st with
  | Some _ => st
  | None =>
      let batch := slice records i (i + batch_size) in
      let st := fold_left put_review batch st in
      match raised st with
      | Some _ => st
      | None => print (LineBatchSent (i / batch_size + 1)) st
      end
  end.

(** Lines 16-36 from the column ['reviews.text'] of the data frame, a
    missing value being [None]. *)
Definition stream (column : list (option string)) : state :=
  let st := print LineFetching (State [] [] None) in
  let st := print (LineLoaded (length column)) st in
  let records := omap id column in
  let st := print (LineStreaming batch_size) st in
  let st :=
    fold_left (send_batch records) (range (length records) batch_size) st in
  match raised st with
  | Some _ => st
  | None => print LineComplete st
  end.

End Script.

(** The batches of the loop. *)
Definition batches (records : list string) : list (list string) :=
  map (fun i => slice records i (i + batch_size))
      (range (length records) batch_size).

End Producer.

(** The record that the stream delivers for a review that the producer
    put: its data are the bytes of the payload. *)
Definition produced {S : Producer.Serializer} (review : string)
  : Poller.record :=
  Poller.Rec (Some (Poller.Bytes
                      (Producer.utf8_encode (Producer.dumps_text review)))).

(** The serializer on texts that need no escaping: the JSON text of the
    object and its bytes. *)
Definition plain_serializer : Producer.Serializer :=
  {| Producer.dumps_text := Ascii7.text_object;
     Producer.utf8_encode := list_byte_of_string |}.

(** A sink that takes every payload, and one whose second call raises. *)
Definition sink : nat -> string -> option string := fun _ _ => None.

Definition throttled : nat -> string -> option string :=
  fun i _ => if (i =? 1)%nat then Some "throttled" else None.

(** The codec and the parser undo what the producer did to a review. *)
Definition round_trip {L : Poller.Library} {S : Producer.Serializer}
    (review : string) : Prop :=
  Poller.utf8_decode (Producer.utf8_encode (Producer.dumps_text review))
  = Some (Producer.dumps_text review)
  /\ Poller.json_loads (Producer.dumps_text review)
     = Some (Poller.JObj (<["text" := Poller.JStr review]> ∅)).

(** ** The consumer script ([mapreduce_stream_comsume.py], lines 9-26) *)

Module Consumer.

(** The lines that the script prints. *)
Inductive line :=
| LineChecking                 (* line 17 *)
| LineRecord (data : string)   (* line 22 *)
| LineNoNewRecords.            (* line 24 *)

(** What [client.get_records] does: it raises, or it returns a dictionary.
    The script subscripts the dictionary, so that a missing key raises
    [KeyError]: [NextShardIterator] is [None] when the key is missing,
    [Some None] when its value is null; [Records] is [None] when the key is
    missing. *)
Inductive response :=
| Raises (e : string)
| Response (NextShardIterator : option (option string))
           (Records : option (list Poller.record)).

(** The script has no handler: an exception ends it. *)
Inductive status := Running | Finished | Crashed.

(** The variable [shard_iterator], the output, the iterators that
    [get_records] was called with, and how far the script is. *)
Record state := State {
  shard_iterator : option string;
  stdout : list line;
  calls : list (option string);
  progress : status
}.

Section Script.
Context {L : Poller.Library}.

(** [get_records i it] is the outcome of call number [i] of
    [client.get_records(ShardIterator=it, Limit=10)]. *)
Variable get_records : nat -> option string -> response.

(** [record["Data"].decode("utf-8")]: [None] when the key is missing, when
    the data are not [bytes] or when they are not UTF-8. *)
Definition data_text (r : Poller.record) : option string :=
  match Poller.Data r with
  | Some (Poller.Bytes b) => Poller.utf8_decode b
  | Some (Poller.NotBytes _) => None    (* no attribute [decode] *)
  | None => None                        (* KeyError *)
  end.

(** Lines 21-22 for one record. *)
Definition print_record (st : state) (r : Poller.record) : state :=
  match progress st with
  | Running =>
      match data_text r with
      | Some text =>
          State (shard_iterator st) (stdout st ++ [LineRecord text])
                (calls st) Running
      | None => State (shard_iterator st) (stdout st) (calls st) Crashed
      end
  | _ => st
  end.

(** One turn of the loop (lines 19-26). *)
Definition turn (st : state) : state :=
  match progress st with
  | Running =>
      let response :=
        get_records (length (calls st)) (shard_iterator st) in
      let st :=
        State (shard_iterator st) (stdout st)
              (calls st ++ [shard_iterator st]) Running in
      match response with
      | Raises _ => State (shard_iterator st) (stdout st) (calls st) Crashed
      | Response None _ =>
          State (shard_iterator st) (stdout st) (calls st) Crashed
      | Response (Some next) records =>
          let st := State next (stdout st) (calls st) Running in
          match records with
          | None => State next (stdout st) (calls st) Crashed
          | Some records =>
              let st := fold_left print_record records st in
              match progress st, records with
              | Running, [] =>
                  State next (stdout st ++ [LineNoNewRecords]) (calls st)
                        Finished
              | _, _ => st
              end
          end
      end
  | _ => st
  end.

(** At most [turns] turns of the loop. *)
Fixpoint loop (turns : nat) (st : state) : state :=
  match turns with
  | O => st
  | S n => loop n (turn st)
  end.

(** The script, given what lines 9-15 obtained: the first iterator, or
    [None] when one of the calls raised or the stream has no shard. *)
Definition consume (turns : nat) (first : option string) : state :=
  match first with
  | None => State None [] [] Crashed
  | Some it => loop turns (State (Some it) [LineChecking] [] Running)
  end.

(** The source answers the calls from number [i] on with the batches of
    [script], each with records that all decode and with a next iterator,
    and then with an empty batch. *)
Fixpoint serves (i : nat) (it : option string)
    (script : list (option string * list Poller.record)) : Prop :=
  match script with
  | [] => exists next, get_records i it = Response (Some next) (Some [])
  | (next, records) :: script' =>
      records <> []
      /\ get_records i it = Response (Some next) (Some records)
      /\ Forall (fun r => is_Some (data_text r)) records
      /\ serves (S i) next script'
  end.

End Script.

End Consumer.

(** A source with two batches, the second with a null iterator, and then
    nothing. *)
Definition two_batches : nat -> option string -> Consumer.response :=
  fun i _ =>
    match i with
    | O => Consumer.Response (Some (Some "it-1"))
             (Some [Ascii7.body "one"; Ascii7.body "two"])
    | S O => Consumer.Response (Some None) (Some [Ascii7.body "three"])
    | _ => Consumer.Response (Some None) (Some [])
    end.

(** A source whose batch has a record without data in the middle. *)
Definition broken_batch : nat -> option string -> Consumer.response :=
  fun _ _ =>
    Consumer.Response (Some (Some "it-1"))
      (Some [Ascii7.body "one"; Poller.Rec None; Ascii7.body "two"]).

(** ** The start of [poll_kinesis] (lines 421-490 and 604-606) *)

Module Startup.

(** What [client.describe_stream] does: it raises a [ClientError] with an
    error code, it raises another exception, or it returns the status of the
    stream and the identifiers of its shards. *)
Inductive describe_result :=
| ClientError (code message : string)
| OtherError (message : string)
| Description (StreamStatus : string) (Shards : list string).

(** The services as the start sees them.  [kinesis_client] is the exception
    of [boto3.client("kinesis", ...)], if it raises; [caller_identity] is the
    user of [get_caller_identity], or the exception of the [sts] calls;
    [get_shard_iterator i shard_id] is the iterator that call number [i]
    returns for the shard, or [None] when the call raises. *)
Record aws := Aws {
  kinesis_client : option string;
  caller_identity : string + string;
  describe_stream : describe_result;
  get_shard_iterator : nat -> string -> option string
}.

(** The lines that the start prints. *)
Inductive line :=
| LineInitializing                          (* line 423 *)
| LineIdentity (user : string)              (* line 430 *)
| LineCredentialsError (e : string)         (* line 432 *)
| LineChecking (stream_name : string)       (* line 437 *)
| LineStreamFound (stream_status : string)  (* line 441 *)
| LineNotActive (stream_status : string)    (* line 444 *)
| LineNotFound (stream_name : string)       (* line 450 *)
| LineDescribeError (e : string)            (* line 454 *)
| LineShards (n : nat)                      (* line 460 *)
| LineNoShards                              (* line 463 *)
| LineSettingUp (shard_id : string)         (* line 471 *)
| LineIteratorObtained (shard_id : string)  (* line 480 *)
| LineIteratorError (shard_id : string)     (* line 482 *)
| LineNoIterators                           (* line 485 *)
| LineListening                             (* line 490 *)
| LineCritical (e : string).                (* line 605 *)

Definition stream_name : string := "review-stream".

(** How the start ends: with a [return] or in the handler of line 604, the
    status message being set, or at the loop, in its first state. *)
Inductive result :=
| Stopped (status_message : string)
| Listening (st : Poller.state).

(** The shards with the outcomes of their calls, in the order of the loop of
    line 469. *)
Definition iterator_calls (env : aws) (shards : list string)
  : list (string * option string) :=
  imap (fun i shard_id => (shard_id, get_shard_iterator env i shard_id))
       shards.

(** The lines of the loop of lines 469-482. *)
Definition iterator_lines (calls : list (string * option string))
  : list line :=
  concat (map (fun '(shard_id, it) =>
                 [LineSettingUp shard_id;
                  match it with
                  | Some _ => LineIteratorObtained shard_id
                  | None => LineIteratorError shard_id
                  end]) calls).

(** Lines 421-490: the output and the result. *)
Definition startup (env : aws) : list line * result :=
  let out := [LineInitializing] in
  match kinesis_client env with
  | Some e => (out ++ [LineCritical e], Stopped ("Critical error: " +:+ e))
  | None =>
  match caller_identity env with
  | inr e =>
      (out ++ [LineCredentialsError e],
       Stopped ("AWS Credentials Error: " +:+ e))
  | inl user =>
  let out := out ++ [LineIdentity user; LineChecking stream_name] in
  match describe_stream env with
  | ClientError code message =>
      if String.eqb code "ResourceNotFoundException"
      then (out ++ [LineNotFound stream_name],
            Stopped ("Stream '" +:+ stream_name +:+ "' not found"))
      else (out ++ [LineDescribeError message],
            Stopped ("Error describing stream: " +:+ message))
  | OtherError e =>
      (out ++ [LineCritical e], Stopped ("Critical error: " +:+ e))
  | Description stream_status shards =>
  let out := out ++ [LineStreamFound stream_status] in
  if negb (String.eqb stream_status "ACTIVE")
  then (out ++ [LineNotActive stream_status],
        Stopped ("Stream status: " +:+ stream_status))
  else
  let out := out ++ [LineShards (length shards)] in
  match shards with
  | [] => (out ++ [LineNoShards], Stopped "No shards found in stream")
  | _ =>
  let calls := iterator_calls env shards in
  let out := out ++ iterator_lines calls in
  match Poller.initial_iterators calls with
  | [] => (out ++ [LineNoIterators], Stopped "No shard iterators obtained")
  | _ => (out ++ [LineListening], Listening (Poller.initial_state calls))
  end end end end end.

End Startup.

(** An account whose stream is ACTIVE with two shards, the second of which
    gives no iterator. *)
Definition ready : Startup.aws :=
  {| Startup.kinesis_client := None;
     Startup.caller_identity := inl "AIDAEXAMPLE";
     Startup.describe_stream :=
       Startup.Description "ACTIVE" ["shard-0"; "shard-1"];
     Startup.get_shard_iterator :=
       fun i _ => if (i =? 0)%nat then Some "it-0" else None |}.

(** ** The routes of the dashboard (lines 351-416) *)

Module Routes.

(** [json.dumps] and [datetime.isoformat]. *)
Class Rendering := {
  json_dumps : Poller.json -> string;
  isoformat : Z -> string
}.

(** [(a / b) * 100] on integers, or [ZeroDivisionError]. *)
Definition percentage (a b : Z) : option Q :=
  (fun q => q * 100)%Q <$> Analyzer.truediv a b.

(** The unpacking [words, counts = zip( *top_words )] on a list that is
    not empty: the words and the counts. *)
Definition unzip (top_words : list (string * nat))
  : list string * list nat :=
  (map fst top_words, map snd top_words).

Definition json_nat (n : nat) : Poller.json := Poller.JInt (Z.of_nat n).

(** [top_words_data] (lines 366-376), the value that is serialized. *)
Definition top_words_data (top_words : list (string * nat)) : Poller.json :=
  match top_words with
  | [] => Poller.JArr []
  | _ =>
      let '(words, counts) := unzip top_words in
      Poller.JArr
        [Poller.JObj
           (<["x" := Poller.JArr (map json_nat counts)]>
           (<["y" := Poller.JArr (map Poller.JStr words)]>
           (<["type" := Poller.JStr "bar"]>
           (<["orientation" := Poller.JStr "h"]>
           (<["marker" :=
                Poller.JObj (<["color" := Poller.JStr "#007bff"]> ∅)]>
              ∅)))))]
  end.

(** [sentiment_data] (lines 378-388); [None] is a [KeyError]. *)
Definition sentiment_data (window_stats : gmap string nat)
  : option Poller.json :=
  total ← window_stats !! "total";
  if (0 <? total)%nat then
    positive ← window_stats !! "positive";
    negative ← window_stats !! "negative";
    neutral ← window_stats !! "neutral";
    Some (Poller.JArr
      [Poller.JObj
         (<["values" :=
              Poller.JArr [json_nat positive; json_nat negative;
                           json_nat neutral]]>
         (<["labels" :=
              Poller.JArr [Poller.JStr "Positive"; Poller.JStr "Negative";
                           Poller.JStr "Neutral"]]>
         (<["type" := Poller.JStr "pie"]>
         (<["marker" :=
              Poller.JObj
                (<["colors" :=
                     Poller.JArr [Poller.JStr "#28a745";
                                  Poller.JStr "#dc3545";
                                  Poller.JStr "#6c757d"]]> ∅)]>
            ∅))))])
  else Some (Poller.JArr []).

(** [list(reversed(reviews[-10:]))]. *)
Definition latest_reviews (reviews : list Analyzer.message)
  : list Analyzer.message :=
  reverse (drop (length reviews - 10) reviews).

(** The arguments of [render_template_string] (lines 390-400). *)
Record page := Page {
  page_reviews : list Analyzer.message;
  page_status_message : string;
  page_total_reviews : Z;
  page_window_stats : gmap string nat;
  page_message_rate : Q;
  page_positive_percentage : Q;
  page_top_words_data : string;
  page_sentiment_data : string
}.


Section Handlers.
Context {U : Unicode} {R : Rendering}.

(** [index] (lines 352-400) on the globals as the handler reads them; the
    three queries read the clock one after the other.  [None] is an
    exception. *)
Definition index (clock_stats clock_rate clock_words : nat -> Z)
    (st : Poller.state) : option page :=
  let window_analyzer := Poller.window_analyzer st in
  let window_stats :=
    Analyzer.get_sentiment_stats clock_stats 5 window_analyzer in
  message_rate ← Analyzer.get_message_rate clock_rate 5 window_analyzer;
  let top_words := Analyzer.get_top_words clock_words 5 5 window_analyzer in
  total ← window_stats !! "total";
  positive_percentage ←
    (if (0 <? total)%nat
     then positive ← window_stats !! "positive";
          percentage (Z.of_nat positive) (Z.of_nat total)
     else Some 0%Q);
  sentiment ← sentiment_data window_stats;
  Some (Page (latest_reviews (Poller.reviews st))
             (Poller.status_message st)
             (Poller.total_reviews st)
             window_stats message_rate positive_percentage
             (json_dumps (top_words_data top_words))
             (json_dumps sentiment)).


End Handlers.

(** Reading a bar chart back: the words of ['y'] with the counts of
    ['x']. *)
Definition json_strings (j : Poller.json) : option (list string) :=
  match j with
  | Poller.JArr l =>
      mapM (fun x => match x with Poller.JStr s => Some s | _ => None end) l
  | _ => None
  end.

Definition json_counts (j : Poller.json) : option (list nat) :=
  match j with
  | Poller.JArr l =>
      mapM (fun x => match x with
                     | Poller.JInt z => Some (Z.to_nat z)
                     | _ => None
                     end) l
  | _ => None
  end.

Definition chart_bars (chart : Poller.json) : option (list (string * nat)) :=
  match chart with
  | Poller.JArr [] => Some []
  | Poller.JArr [Poller.JObj o] =>
      ys ← o !! "y"; words ← json_strings ys;
      xs ← o !! "x"; counts ← json_counts xs;
      Some (zip words counts)
  | _ => None
  end.

(** Reading a pie chart back: the sizes of the slices, in the order
    Positive, Negative, Neutral. *)
Definition pie_values (chart : Poller.json) : option (list nat) :=
  match chart with
  | Poller.JArr [Poller.JObj o] => values ← o !! "values"; json_counts values
  | _ => None
  end.

End Routes.

(** A renderer of the examples: it keeps the kind of the value only. *)
Definition plain_rendering : Routes.Rendering :=
  {| Routes.json_dumps j :=
       match j with
       | Poller.JArr [] => "[]"
       | _ => "[{...}]"
       end;
     Routes.isoformat _ := "2024-01-01T12:00:00" |}.

(** * Properties *)

(** ** The bounded store *)

Section DequeFacts.
Context {A : Type}.
Implicit Types (d : deque A) (x : A) (all : list A).

Lemma deque_append_maxlen x d : maxlen (deque_append x d) = maxlen d.
Proof. reflexivity. Qed.

(** A deque that holds the last [maxlen] items of a history still does so
    after [append]. *)
Lemma deque_append_history x d all :
  items d = drop (length all - maxlen d) all ->
  items (deque_append x d)
  = drop (length (all ++ [x]) - maxlen d) (all ++ [x]).
Proof.
  intros Hd. unfold deque_append. cbn [items maxlen].
  rewrite Hd, !length_app, length_drop. cbn [length].
  destruct (Nat.ltb_spec (maxlen d)
              (length all - (length all - maxlen d) + 1)) as [Hlt | Hge].
  - rewrite <- drop_app_le by lia.
    rewrite drop_drop. f_equal. lia.
  - replace (length all - maxlen d)%nat with 0%nat by lia.
    replace (length all + 1 - maxlen d)%nat with 0%nat by lia.
    reflexivity.
Qed.

End DequeFacts.

Section StoreFacts.
Import Analyzer.

Lemma add_messages_maxlen events self :
  maxlen (all_messages (add_messages events self))
  = maxlen (all_messages self).
Proof.
  revert self. induction events as [| [now m] events IH]; intros self.
  - reflexivity.
  - cbn. rewrite IH. reflexivity.
Qed.

Lemma add_messages_history events : forall self all,
  items (all_messages self)
  = drop (length all - maxlen (all_messages self)) all ->
  items (all_messages (add_messages events self))
  = drop (length (all ++ map stamped events) - maxlen (all_messages self))
         (all ++ map stamped events).
Proof.
  induction events as [| [now m] events IH]; intros self all Hself.
  - cbn. rewrite app_nil_r. exact Hself.
  - cbn [add_messages fold_left map].
    change (fold_left _ events ?s) with (add_messages events s).
    replace (all ++ stamped (now, m) :: map stamped events)
      with ((all ++ [stamped (now, m)]) ++ map stamped events)
      by (rewrite <- app_assoc; reflexivity).
    change (maxlen (all_messages self))
      with (maxlen (all_messages (add_message now m self))).
    apply IH. unfold add_message. cbn [all_messages].
    rewrite deque_append_maxlen.
    apply deque_append_history, Hself.
Qed.

(** C3. Whatever events are ingested into a new analyzer, the store never
    holds more than its capacity of 10000 messages, and it holds the most
    recent ones in the order of their arrival: after [10000 + k] events it
    holds exactly the last 10000, the oldest first. *)
Theorem store_bounded_and_recent (events : list (Z * message)) :
  let store := items (all_messages (add_messages events init)) in
  (length store <= 10000)%nat
  /\ store = drop (length events - 10000) (map stamped events)
  /\ forall k : nat,
       length events = (10000 + k)%nat ->
       length store = 10000%nat /\ store = drop k (map stamped events).
Proof.
  cbn zeta.
  pose proof (add_messages_history events init [] eq_refl) as H.
  cbn [app] in H. rewrite length_map in H.
  change (maxlen (all_messages init)) with 10000%nat in H.
  rewrite H. clear H.
  generalize 10000%nat. intros cap.
  split; [| split; [reflexivity |]].
  - rewrite length_drop, length_map. lia.
  - intros k Hk. rewrite length_drop, length_map.
    split; [lia |]. f_equal. lia.
Qed.

End StoreFacts.

Lemma store_bounded_and_recent_witness :
  let events := replicate 10001 (0, Ascii7.no_message) in
  length events = (10000 + 1)%nat
  /\ length (items (Analyzer.all_messages (add_messages events Analyzer.init)))
     = 10000%nat.
Proof.
  cbn zeta.
  assert (Hlen : length (replicate 10001 (0, Ascii7.no_message))
                 = (10000 + 1)%nat).
  { rewrite length_replicate. vm_compute. reflexivity. }
  split; [exact Hlen |].
  exact (proj1 (proj2 (proj2 (store_bounded_and_recent _)) 1%nat Hlen)).
Defined.

(** ** Windows *)

Section WindowFacts.
Import Analyzer.
Implicit Types (clock : nat -> Z) (self : SlidingWindowAnalyzer).

Lemma window_from_sublist clock cutoff i msgs :
  window_from clock cutoff i msgs `sublist_of` msgs.
Proof.
  revert i. induction msgs as [| msg rest IH]; intros i; cbn.
  - constructor.
  - destruct (cutoff <? _); [apply sublist_skip | apply sublist_cons]; apply IH.
Qed.




(** ** Arrival rate *)



End WindowFacts.

(** ** Counters *)

Section CounterFacts.
Context {K : Type} `{EqDecision K}.
Implicit Types (k : K) (c : list (K * nat)) (l : list K).

Lemma counter_get_incr k k' c :
  counter_get k (counter_incr k' c)
  = if decide (k' = k) then S (counter_get k c) else counter_get k c.
Proof.
  induction c as [| [k0 n] c IH]; cbn.
  - repeat case_decide; congruence.
  - repeat (case_decide; cbn); congruence.
Qed.

Lemma counter_get_fold k l : forall c,
  counter_get k (fold_left (fun c x => counter_incr x c) l c)
  = (counter_get k c + occurrences k l)%nat.
Proof.
  induction l as [| x l IH]; intros c; cbn.
  - lia.
  - rewrite IH, counter_get_incr. unfold occurrences. cbn.
    case_decide; case_bool_decide; try congruence; cbn; lia.
Qed.

(** A counter counts the occurrences. *)
Lemma counter_get_Counter k l : counter_get k (Counter l) = occurrences k l.
Proof. unfold Counter. rewrite counter_get_fold. reflexivity. Qed.

End CounterFacts.

(** ** Sentiment counts *)

Section SentimentFacts.
Import Analyzer.
Implicit Types (clock : nat -> Z) (self : SlidingWindowAnalyzer).

Lemma occurrences_labels (l : string) (p : option string -> bool) window :
  (forall o, bool_decide (default "Neutral" o = l) = p o) ->
  occurrences l (map (fun msg => default "Neutral" (sentiment msg)) window)
  = count_label p window.
Proof.
  intros Hp. unfold occurrences, count_label.
  induction window as [| m w IH]; cbn; [reflexivity |].
  rewrite Hp. destruct (p (sentiment m)); cbn; rewrite IH; reflexivity.
Qed.

Lemma label_is_default (l : string) (o : option string) :
  l <> "Neutral" -> bool_decide (default "Neutral" o = l) = label_is l o.
Proof.
  intros Hl. unfold label_is. destruct o as [x |]; cbn.
  - repeat case_bool_decide; congruence.
  - repeat case_bool_decide; congruence.
Qed.

Lemma label_neutral_default (o : option string) :
  bool_decide (default "Neutral" o = "Neutral") = label_neutral o.
Proof.
  unfold label_neutral, label_is. destruct o as [x |]; cbn.
  - repeat case_bool_decide; congruence.
  - reflexivity.
Qed.

(** Every label is of exactly one of the four kinds. *)
Lemma label_kinds (o : option string) :
  (Nat.b2n (label_is "Positive" o) + Nat.b2n (label_is "Negative" o)
   + Nat.b2n (label_neutral o) + Nat.b2n (label_unknown o) = 1)%nat.
Proof.
  unfold label_neutral, label_is, label_unknown.
  destruct o as [l |].
  - destruct (decide (l = "Positive")) as [-> | Hp]; [reflexivity |].
    destruct (decide (l = "Negative")) as [-> | Hn]; [reflexivity |].
    destruct (decide (l = "Neutral")) as [-> | Hu]; [reflexivity |].
    rewrite !bool_decide_eq_false_2 by (intuition congruence). reflexivity.
  - reflexivity.
Qed.

Lemma count_label_cons p m w :
  count_label p (m :: w) = (Nat.b2n (p (sentiment m)) + count_label p w)%nat.
Proof. unfold count_label. cbn. destruct (p (sentiment m)); reflexivity. Qed.

Lemma labels_partition window :
  length window
  = (count_label (label_is "Positive") window
     + count_label (label_is "Negative") window
     + count_label label_neutral window
     + count_label label_unknown window)%nat.
Proof.
  induction window as [| m w IH]; [reflexivity |].
  rewrite !count_label_cons. cbn [length].
  pose proof (label_kinds (sentiment m)). lia.
Qed.

(** C2, as the code has it. For every window, [get_sentiment_stats] returns
    a dictionary with the keys ['positive'], ['negative'], ['neutral'] and
    ['total']; the total is the number of messages of the window; a message
    without a label is counted under ['neutral'] with those labelled
    ['Neutral']; a message with any other label than the three is counted in
    the total only. *)
Theorem sentiment_stats_spec clock (d : Z) self :
  let window := get_messages_in_window clock d self in
  let stats := get_sentiment_stats clock d self in
  dom stats = ({[ "positive"; "negative"; "neutral"; "total" ]} : gset string)
  /\ stats !! "total" = Some (length window)
  /\ stats !! "positive" = Some (count_label (label_is "Positive") window)
  /\ stats !! "negative" = Some (count_label (label_is "Negative") window)
  /\ stats !! "neutral" = Some (count_label label_neutral window)
  /\ length window
     = (count_label (label_is "Positive") window
        + count_label (label_is "Negative") window
        + count_label label_neutral window
        + count_label label_unknown window)%nat.
Proof.
  cbn zeta. unfold get_sentiment_stats.
  split.
  { destruct (get_messages_in_window clock d self);
      rewrite !dom_insert_L, dom_empty_L; set_solver. }
  split; [| split; [| split; [| split]]].
  - destruct (get_messages_in_window clock d self); reflexivity.
  - destruct (get_messages_in_window clock d self) as [| m w] eqn:E;
      [reflexivity |].
    rewrite lookup_insert_eq, counter_get_Counter. f_equal.
    apply occurrences_labels. intros o. now apply label_is_default.
  - destruct (get_messages_in_window clock d self) as [| m w] eqn:E;
      [reflexivity |].
    rewrite lookup_insert_ne, lookup_insert_eq, counter_get_Counter by done.
    f_equal. apply occurrences_labels. intros o. now apply label_is_default.
  - destruct (get_messages_in_window clock d self) as [| m w] eqn:E;
      [reflexivity |].
    rewrite !lookup_insert_ne, lookup_insert_eq, counter_get_Counter by done.
    f_equal. apply occurrences_labels, label_neutral_default.
  - apply labels_partition.
Qed.

(** C2 fails for a label that is none of the three: the one message of this
    window is labelled ['Mixed'], and ['neutral'] is 0 while ['total'] is
    1. *)
Lemma unknown_label_not_neutral :
  let self :=
    add_messages [(400000000, Ascii7.stored "so so" (Some "Mixed") 0)] init in
  let stats := get_sentiment_stats (fun _ => 400000001) 5 self in
  map sentiment (get_messages_in_window (fun _ => 400000001) 5 self)
  = [Some "Mixed"]
  /\ stats !! "total" = Some 1%nat
  /\ stats !! "neutral" = Some 0%nat
  /\ stats !! "neutral" <> stats !! "total".
Proof. vm_compute. repeat split; discriminate. Qed.

End SentimentFacts.

(** ** Counters in first-seen order *)

Section FirstSeen.
Context {K : Type} `{EqDecision K}.
Implicit Types (k x : K) (l : list K).





Lemma occurrences_pos k l : k ∈ l <-> (1 <= occurrences k l)%nat.
Proof.
  unfold occurrences. induction l as [| y l IH]; cbn.
  - rewrite elem_of_nil. lia.
  - rewrite elem_of_cons, IH. case_bool_decide; cbn; [| intuition congruence].
    subst. intuition lia.
Qed.

Lemma occurrences_notin k l : k ∉ l -> occurrences k l = 0%nat.
Proof. rewrite occurrences_pos. lia. Qed.



End FirstSeen.

(** ** The stable descending sort *)

Section SortFacts.
Context {K : Type}.
Implicit Types (x : K * nat) (l : list (K * nat)).








End SortFacts.

(** ** Tokens *)

Section TokenFacts.
Context {U : Unicode}.
Import Analyzer.





End TokenFacts.

(** ** Splitting and joining *)

Section SplitFacts.
Context {U : Unicode}.

Lemma str_app_nil_r (s : string) : s +:+ EmptyString = s.
Proof.
  induction s as [| c s IH]; [reflexivity |].
  change (String c (s +:+ EmptyString) = String c s). now rewrite IH.
Qed.

Lemma str_app_assoc (a b c : string) : (a +:+ b) +:+ c = a +:+ (b +:+ c).
Proof.
  induction a as [| x a IH]; [reflexivity |].
  change (String x ((a +:+ b) +:+ c) = String x (a +:+ (b +:+ c))).
  now rewrite IH.
Qed.

(** Reading a run of characters that are not whitespace adds it to the
    word. *)
Lemma split_from_run (t : string) : forall word s,
  str_forall not_space t = true ->
  split_from word (t +:+ s) = split_from (word +:+ t) s.
Proof.
  induction t as [| c t IH]; intros word s Ht.
  - rewrite str_app_nil_r. reflexivity.
  - cbn in Ht. apply andb_true_iff in Ht as [Hc Ht].
    change (String c t +:+ s) with (String c (t +:+ s)).
    cbn [split_from]. unfold not_space in Hc.
    apply negb_true_iff in Hc. rewrite Hc.
    rewrite IH by exact Ht. rewrite str_app_assoc. reflexivity.
Qed.

(** [split] undoes [' '.join] on tokens. *)
Lemma str_split_join (tokens : list string) :
  Forall (fun t => str_truthy t = true /\ str_forall not_space t = true)
         tokens ->
  str_split (str_join " " tokens) = tokens.
Proof.
  unfold str_split, str_join.
  induction tokens as [| t tokens IH]; intros Htok; [reflexivity |].
  apply Forall_cons in Htok as [[Ht Hns] Htok].
  destruct tokens as [| t' tokens].
  - change (String.concat " " [t]) with t.
    rewrite <- (str_app_nil_r t) at 1.
    rewrite split_from_run by exact Hns.
    change (EmptyString +:+ t) with t. cbn. rewrite Ht. reflexivity.
  - change (String.concat " " (t :: t' :: tokens))
      with (t +:+ String " "%char (String.concat " " (t' :: tokens))).
    rewrite split_from_run by exact Hns.
    change (EmptyString +:+ t) with t.
    cbn [split_from]. rewrite isspace_space, Ht.
    f_equal. apply IH, Htok.
Qed.
End SplitFacts.



Section TopWords.
Context {U : Unicode}.
Import Analyzer.
Implicit Types (clock : nat -> Z) (self : SlidingWindowAnalyzer).



End TopWords.

Section TopWordsExamples.
Import Analyzer.
Local Existing Instance Ascii7.ascii_unicode.

Example top_words_pizza :
  get_top_words (fun _ => 400000001) 5 1 pizza_store = [("pizza", 10%nat)].
Proof. vm_compute. reflexivity. Qed.

Example top_words_ties_first_seen :
  get_top_words (fun _ => 400000001) 5 2
    (add_messages
       [(400000000, Ascii7.stored "sushi pizza ramen pizza sushi" None 0)]
       init)
  = [("sushi", 2%nat); ("pizza", 2%nat)].
Proof. vm_compute. reflexivity. Qed.



End TopWordsExamples.

(** ** Records *)

Section RecordFacts.
Import Poller.
Context {U : Unicode} {L : Library}.
Variable clock : nat -> Z.
Implicit Types (st : state) (r : record) (shard_id : string).

Lemma printed_app st st' (out : list log_entry) :
  stdout st' = stdout st ++ out -> printed st st' = out.
Proof. intros H. unfold printed. rewrite H. apply drop_app_length. Qed.

(** A record whose body is not JSON (lines 569-571). *)
Lemma process_record_malformed shard_id r st decoded_data :
  decode r = Some decoded_data ->
  json_loads decoded_data = None ->
  process_record clock shard_id r st
  = print (LogRawDataWas decoded_data)
      (print LogJsonDecodeError (print (LogRawData shard_id decoded_data) st)).
Proof. intros Hd Hj. unfold process_record. rewrite Hd, Hj. reflexivity. Qed.

(** A record whose object has no text, or a text that is falsy (line
    567). *)
Lemma process_record_no_text shard_id r st decoded_data o :
  decode r = Some decoded_data ->
  json_loads decoded_data = Some (JObj o) ->
  json_truthy (default (JStr "") (o !! "text")) = false ->
  process_record clock shard_id r st
  = print LogNoTextField
      (print (LogParsedJson (JObj o))
         (print (LogRawData shard_id decoded_data) st)).
Proof.
  intros Hd Hj Ht. unfold process_record. rewrite Hd, Hj. cbn zeta.
  rewrite Ht. reflexivity.
Qed.

(** No record touches the iterators or the trace of calls. *)
Lemma process_record_iterators shard_id r st :
  shard_iterators (process_record clock shard_id r st) = shard_iterators st
  /\ requests (process_record clock shard_id r st) = requests st
  /\ records_found (process_record clock shard_id r st) = records_found st
  /\ consecutive_empty_responses (process_record clock shard_id r st)
     = consecutive_empty_responses st.
Proof.
  unfold process_record, record_error, add_review.
  destruct (decode r) as [d |]; [| repeat split].
  destruct (json_loads d) as [parsed |]; [| repeat split].
  destruct parsed; try (repeat split; fail).
  cbn zeta. destruct (json_truthy _); [| repeat split].
  destruct (default _ _); try (repeat split; fail).
  destruct (get_sentiment s). repeat split.
Qed.

Lemma process_records_iterators shard_id records : forall st,
  shard_iterators (process_records clock shard_id records st)
  = shard_iterators st
  /\ requests (process_records clock shard_id records st) = requests st.
Proof.
  unfold process_records.
  induction records as [| r records IH]; intros st; cbn; [split; reflexivity |].
  destruct (IH (process_record clock shard_id r st)) as [-> ->].
  destruct (process_record_iterators shard_id r st) as (-> & -> & _).
  split; reflexivity.
Qed.

(** The output of a state has no influence on what a record does to the
    rest of it. *)
Lemma process_record_silent shard_id r st1 st2 :
  silent st1 = silent st2 ->
  silent (process_record clock shard_id r st1)
  = silent (process_record clock shard_id r st2).
Proof.
  destruct st1, st2. unfold silent. cbn. intros H. inversion H; subst.
  unfold process_record, record_error, add_review.
  destruct (decode r) as [d |]; [| reflexivity].
  destruct (json_loads d) as [parsed |]; [| reflexivity].
  destruct parsed; try reflexivity.
  cbn zeta. destruct (json_truthy _); [| reflexivity].
  destruct (default _ _); try reflexivity.
  destruct (get_sentiment s). reflexivity.
Qed.

Lemma process_records_silent shard_id records : forall st1 st2,
  silent st1 = silent st2 ->
  silent (process_records clock shard_id records st1)
  = silent (process_records clock shard_id records st2).
Proof.
  unfold process_records.
  induction records as [| r records IH]; intros st1 st2 H; cbn; [exact H |].
  apply IH, process_record_silent, H.
Qed.

Lemma silent_ingested st1 st2 :
  silent st1 = silent st2 -> ingested st1 = ingested st2.
Proof.
  destruct st1, st2. unfold silent, ingested. cbn. intros H.
  inversion H; subst. reflexivity.
Qed.

End RecordFacts.

Section DroppedRecords.
Import Poller.
Context {U : Unicode} {L : Library}.
Variable clock : nat -> Z.
Implicit Types (st : state) (r : record) (shard_id : string).

Lemma silent_print e st : silent (print e st) = silent st.
Proof. reflexivity. Qed.

Lemma process_records_app shard_id (l1 l2 : list record) st :
  process_records clock shard_id (l1 ++ l2) st
  = process_records clock shard_id l2 (process_records clock shard_id l1 st).
Proof. unfold process_records. apply fold_left_app. Qed.

(** A record that leaves the state as it is, apart from the output, can be
    taken out of its batch without a change for the other records. *)
Lemma skipped_record shard_id r (before after : list record) st :
  (forall s, silent (process_record clock shard_id r s) = silent s) ->
  ingested (process_records clock shard_id (before ++ r :: after) st)
  = ingested (process_records clock shard_id (before ++ after) st).
Proof.
  intros Hr. apply silent_ingested.
  rewrite !process_records_app.
  change (process_records clock shard_id (r :: after) ?s)
    with (process_records clock shard_id after
            (process_record clock shard_id r s)).
  apply process_records_silent, Hr.
Qed.

(** C7, as the code has it. A record whose body is not JSON, or is a JSON
    object without the text field, changes neither the store nor the reviews
    nor the total, and the records after it are ingested as if it were not
    there. It prints three lines: the raw data, as every decoded record does,
    and then the decode error and the raw data again for a body that is not
    JSON, the parsed object and the no-text line for an object without
    text. *)
Theorem dropped_record_spec shard_id r st decoded_data :
  decode r = Some decoded_data ->
  json_loads decoded_data = None
  \/ (exists o, json_loads decoded_data = Some (JObj o) /\ o !! "text" = None) ->
  let st' := process_record clock shard_id r st in
  ingested st' = ingested st
  /\ (json_loads decoded_data = None ->
      printed st st'
      = [LogRawData shard_id decoded_data; LogJsonDecodeError;
         LogRawDataWas decoded_data])
  /\ (forall o, json_loads decoded_data = Some (JObj o) ->
      printed st st'
      = [LogRawData shard_id decoded_data; LogParsedJson (JObj o);
         LogNoTextField])
  /\ (forall before after st0,
      ingested (process_records clock shard_id (before ++ r :: after) st0)
      = ingested (process_records clock shard_id (before ++ after) st0)).
Proof.
  intros Hd Hkind. cbn zeta.
  assert (Hsilent : forall s,
            silent (process_record clock shard_id r s) = silent s).
  { intros s. destruct Hkind as [Hj | (o & Hj & Ho)].
    - rewrite (process_record_malformed clock _ _ _ _ Hd Hj). reflexivity.
    - rewrite (process_record_no_text clock _ _ _ _ o Hd Hj)
        by (rewrite Ho; reflexivity).
      reflexivity. }
  split; [apply silent_ingested, Hsilent |].
  split; [| split].
  - intros Hj. apply printed_app.
    rewrite (process_record_malformed clock _ _ _ _ Hd Hj). cbn.
    rewrite <- !app_assoc. reflexivity.
  - intros o Hj. destruct Hkind as [Hn | (o' & Hj' & Ho)]; [congruence |].
    assert (o' = o) as -> by congruence.
    apply printed_app.
    rewrite (process_record_no_text clock _ _ _ _ o Hd Hj)
      by (rewrite Ho; reflexivity).
    cbn. rewrite <- !app_assoc. reflexivity.
  - intros before after st0. apply skipped_record, Hsilent.
Qed.

(** C10. A record whose JSON object has the empty string as its text takes
    the branch of line 567: it changes neither the store nor the reviews nor
    the total, its last line of output is the no-text line, and apart from
    the output the state is the one that a record without the field
    leaves. *)
Theorem empty_text_dropped shard_id r st decoded_data o :
  decode r = Some decoded_data ->
  json_loads decoded_data = Some (JObj o) ->
  o !! "text" = Some (JStr "") ->
  let st' := process_record clock shard_id r st in
  st' = print LogNoTextField
          (print (LogParsedJson (JObj o))
             (print (LogRawData shard_id decoded_data) st))
  /\ ingested st' = ingested st
  /\ printed st st'
     = [LogRawData shard_id decoded_data; LogParsedJson (JObj o);
        LogNoTextField]
  /\ (forall r2 decoded2 o2,
      decode r2 = Some decoded2 ->
      json_loads decoded2 = Some (JObj o2) ->
      o2 !! "text" = None ->
      silent (process_record clock shard_id r2 st) = silent st'
      /\ last (printed st (process_record clock shard_id r2 st))
         = last (printed st st')).
Proof.
  intros Hd Hj Ho. cbn zeta.
  assert (Heq : process_record clock shard_id r st
                = print LogNoTextField
                    (print (LogParsedJson (JObj o))
                       (print (LogRawData shard_id decoded_data) st))).
  { apply process_record_no_text; [exact Hd | exact Hj |].
    rewrite Ho. reflexivity. }
  split; [exact Heq |]. rewrite Heq.
  assert (Hout : printed st
                   (print LogNoTextField
                      (print (LogParsedJson (JObj o))
                         (print (LogRawData shard_id decoded_data) st)))
                 = [LogRawData shard_id decoded_data; LogParsedJson (JObj o);
                    LogNoTextField]).
  { apply printed_app. cbn. rewrite <- !app_assoc. reflexivity. }
  split; [reflexivity |]. split; [exact Hout |].
  intros r2 decoded2 o2 Hd2 Hj2 Ho2.
  rewrite (process_record_no_text clock _ _ _ _ o2 Hd2 Hj2)
    by (rewrite Ho2; reflexivity).
  split; [reflexivity |].
  rewrite Hout.
  rewrite (printed_app _ _ [LogRawData shard_id decoded2;
                            LogParsedJson (JObj o2); LogNoTextField]);
    [reflexivity |].
  cbn. rewrite <- !app_assoc. reflexivity.
Qed.

End DroppedRecords.

Section DroppedRecordsExamples.
Import Poller.
Local Existing Instance Ascii7.ascii_unicode.
Local Existing Instance Ascii7.library.

Lemma dropped_record_spec_witness :
  ingested (process_record Ascii7.noon "shard-0" (Ascii7.body "not json")
              Ascii7.empty_state)
  = ingested Ascii7.empty_state.
Proof.
  refine (proj1 (dropped_record_spec Ascii7.noon "shard-0"
                   (Ascii7.body "not json") Ascii7.empty_state "not json"
                   _ _)).
  - vm_compute. reflexivity.
  - left. vm_compute. reflexivity.
Defined.

(** C7 fails on the number of lines: neither kind of dropped record prints
    exactly one. *)
Lemma dropped_record_prints_three_lines :
  printed Ascii7.empty_state
    (process_record Ascii7.noon "shard-0" (Ascii7.body "not json")
       Ascii7.empty_state)
  = [LogRawData "shard-0" "not json"; LogJsonDecodeError;
     LogRawDataWas "not json"]
  /\ printed Ascii7.empty_state
       (process_record Ascii7.noon "shard-0" (Ascii7.body "{}")
          Ascii7.empty_state)
     = [LogRawData "shard-0" "{}"; LogParsedJson (JObj ∅); LogNoTextField]
  /\ length (printed Ascii7.empty_state
               (process_record Ascii7.noon "shard-0" (Ascii7.body "not json")
                  Ascii7.empty_state)) <> 1%nat
  /\ length (printed Ascii7.empty_state
               (process_record Ascii7.noon "shard-0" (Ascii7.body "{}")
                  Ascii7.empty_state)) <> 1%nat.
Proof. vm_compute. repeat split; discriminate. Qed.

Lemma empty_text_dropped_witness :
  ingested (process_record Ascii7.noon "shard-0"
              (Ascii7.body (Ascii7.text_object "")) Ascii7.empty_state)
  = ingested Ascii7.empty_state.
Proof.
  refine (proj1 (proj2 (empty_text_dropped Ascii7.noon "shard-0"
                   (Ascii7.body (Ascii7.text_object "")) Ascii7.empty_state
                   (Ascii7.text_object "") (<["text" := JStr ""]> ∅)
                   _ _ _))).
  - vm_compute. reflexivity.
  - vm_compute. reflexivity.
  - vm_compute. reflexivity.
Defined.

(** A record with a text is ingested. *)
Example review_ingested :
  let st := process_record Ascii7.noon "shard-0"
              (Ascii7.body (Ascii7.text_object "great service"))
              Ascii7.empty_state in
  total_reviews st = 1
  /\ map Analyzer.sentiment (reviews st) = [Some "Positive"]
  /\ status_message st
     = "Active - Records: 1 - Last: 12:00:00 - Sentiment: Positive".
Proof. vm_compute. repeat split. Qed.

End DroppedRecordsExamples.

(** ** Dictionaries *)

Section DictFacts.
Import Poller.
Context {K V : Type} `{EqDecision K}.
Implicit Types (k : K) (v : V) (d : list (K * V)).

Lemma dict_get_set_eq k v d : dict_get k (dict_set k v d) = Some v.
Proof.
  induction d as [| [k' v'] d IH]; cbn.
  - rewrite decide_True; reflexivity.
  - destruct (decide (k' = k)) as [-> | Hne]; cbn.
    + rewrite decide_True; reflexivity.
    + rewrite decide_False by exact Hne. exact IH.
Qed.

Lemma dict_get_set_ne k k' v d :
  k <> k' -> dict_get k' (dict_set k v d) = dict_get k' d.
Proof.
  intros Hne. induction d as [| [k0 v0] d IH]; cbn.
  - rewrite decide_False; [reflexivity | exact Hne].
  - destruct (decide (k0 = k)) as [-> | Hk0]; cbn.
    + rewrite !decide_False by exact Hne. reflexivity.
    + destruct (decide (k0 = k')); [reflexivity | exact IH].
Qed.

Lemma dict_get_del_eq k d : dict_get k (dict_del k d) = None.
Proof.
  unfold dict_del. induction d as [| [k' v'] d IH]; cbn; [reflexivity |].
  case_bool_decide as Hk; cbn; [exact IH |].
  rewrite decide_False by exact Hk. exact IH.
Qed.

Lemma dict_get_del_ne k k' d :
  k <> k' -> dict_get k' (dict_del k d) = dict_get k' d.
Proof.
  intros Hne. unfold dict_del.
  induction d as [| [k0 v0] d IH]; cbn; [reflexivity |].
  case_bool_decide as Hk; cbn.
  - subst k0. rewrite decide_False by exact Hne. exact IH.
  - destruct (decide (k0 = k')); [reflexivity | exact IH].
Qed.

Lemma dict_get_None k d : dict_get k d = None <-> k ∉ dict_keys d.
Proof.
  unfold dict_keys. induction d as [| [k' v'] d IH]; cbn.
  - split; [intros _; apply not_elem_of_nil | reflexivity].
  - rewrite not_elem_of_cons, <- IH.
    destruct (decide (k' = k)) as [-> | Hne].
    + split; [discriminate | intros [Hk _]; now destruct Hk].
    + split; [intros Hd; split; [congruence | exact Hd] | tauto].
Qed.

Lemma dict_get_Some_elem k v d : dict_get k d = Some v -> (k, v) ∈ d.
Proof.
  induction d as [| [k' v'] d IH]; cbn; [discriminate |].
  destruct (decide (k' = k)) as [-> | Hne].
  - intros [= ->]. left.
  - intros H. right. apply IH, H.
Qed.

Lemma dict_elem_get k v d :
  NoDup (dict_keys d) -> (k, v) ∈ d -> dict_get k d = Some v.
Proof.
  unfold dict_keys. induction d as [| [k' v'] d IH]; cbn; intros Hnd Hin.
  - apply elem_of_nil in Hin. destruct Hin.
  - apply NoDup_cons in Hnd as [Hk' Hnd].
    apply elem_of_cons in Hin as [[= -> ->] | Hin].
    + rewrite decide_True; reflexivity.
    + rewrite decide_False; [apply IH; assumption |].
      intros ->. apply Hk'. apply list_elem_of_fmap.
      exists (k, v). split; [reflexivity | exact Hin].
Qed.

Lemma dict_all_None d : (forall k, dict_get k d = None) -> d = [].
Proof.
  destruct d as [| [k v] d]; [reflexivity |].
  intros H. specialize (H k). cbn in H.
  rewrite decide_True in H by reflexivity. discriminate.
Qed.

Lemma dict_set_keys k v d :
  dict_keys (dict_set k v d)
  = if bool_decide (k ∈ dict_keys d) then dict_keys d else dict_keys d ++ [k].
Proof.
  unfold dict_keys. induction d as [| [k' v'] d IH]; cbn.
  - rewrite bool_decide_eq_false_2 by apply not_elem_of_nil. reflexivity.
  - destruct (decide (k' = k)) as [-> | Hne]; cbn.
    + rewrite bool_decide_eq_true_2 by left. reflexivity.
    + rewrite IH. case_bool_decide as Hin.
      * rewrite bool_decide_eq_true_2 by (right; exact Hin). reflexivity.
      * rewrite bool_decide_eq_false_2; [reflexivity |].
        rewrite not_elem_of_cons. split; [congruence | exact Hin].
Qed.

Lemma dict_set_NoDup k v d :
  NoDup (dict_keys d) -> NoDup (dict_keys (dict_set k v d)).
Proof.
  intros Hnd. rewrite dict_set_keys. case_bool_decide as Hin; [exact Hnd |].
  apply NoDup_app. split; [exact Hnd |]. split.
  - intros x Hx Hx'. apply list_elem_of_singleton in Hx'. subst. auto.
  - apply NoDup_singleton.
Qed.

Lemma dict_del_NoDup k d :
  NoDup (dict_keys d) -> NoDup (dict_keys (dict_del k d)).
Proof.
  unfold dict_keys, dict_del. intros Hnd.
  eapply sublist_NoDup; [exact Hnd |].
  induction d as [| [k' v'] d IH]; cbn; [constructor |].
  apply NoDup_cons in Hnd as [_ Hnd].
  destruct (negb _); cbn; [apply sublist_skip | apply sublist_cons];
    apply IH, Hnd.
Qed.

End DictFacts.

(** ** One shard *)

Section ShardFacts.
Import Poller.
Context {U : Unicode} {L : Library}.
Variable clock : nat -> Z.
Variable client : nat -> string -> get_records_result.
Implicit Types (st s : state) (shard_id it : string).

Lemma poll_shard_skip shard_id it s :
  str_truthy it = false -> poll_shard clock client shard_id it s = s.
Proof. intros H. unfold poll_shard. rewrite H. reflexivity. Qed.

Lemma poll_shard_raises shard_id it s e :
  str_truthy it = true ->
  client (length (requests s)) it = Raises e ->
  poll_shard clock client shard_id it s
  = print (LogFetchError shard_id) (request shard_id it s).
Proof. intros H Hc. unfold poll_shard. rewrite H, Hc. reflexivity. Qed.

Lemma poll_shard_exhausted shard_id it s nxt records :
  str_truthy it = true ->
  client (length (requests s)) it = Response nxt records ->
  iterator_truthy nxt = false ->
  poll_shard clock client shard_id it s = exhausted shard_id it s.
Proof.
  intros H Hc Hn. unfold poll_shard, exhausted. rewrite H, Hc. cbn zeta.
  cbn [negb]. rewrite Hn. reflexivity.
Qed.

Lemma poll_shard_advanced shard_id it s nxt records :
  str_truthy it = true ->
  client (length (requests s)) it = Response (Some nxt) records ->
  str_truthy nxt = true ->
  poll_shard clock client shard_id it s
  = advanced clock shard_id it nxt records s.
Proof.
  intros H Hc Hn. unfold poll_shard, advanced. rewrite H, Hc. cbn zeta.
  cbn [negb iterator_truthy]. rewrite Hn. reflexivity.
Qed.

(** The four ways through [poll_shard]. *)
Lemma poll_shard_cases shard_id it s :
  (str_truthy it = false /\ poll_shard clock client shard_id it s = s)
  \/ (str_truthy it = true
      /\ ((exists e, client (length (requests s)) it = Raises e)
          /\ poll_shard clock client shard_id it s
             = print (LogFetchError shard_id) (request shard_id it s)
          \/ (exists nxt records,
                client (length (requests s)) it = Response nxt records
                /\ iterator_truthy nxt = false)
             /\ poll_shard clock client shard_id it s
                = exhausted shard_id it s
          \/ (exists nxt records,
                client (length (requests s)) it = Response (Some nxt) records
                /\ str_truthy nxt = true
                /\ poll_shard clock client shard_id it s
                   = advanced clock shard_id it nxt records s))).
Proof.
  destruct (str_truthy it) eqn:Hit; [right | left].
  - split; [reflexivity |].
    destruct (client (length (requests s)) it) as [e | nxt records] eqn:Hc.
    + left. split; [eauto | eapply poll_shard_raises; eauto].
    + destruct (iterator_truthy nxt) eqn:Hn.
      * right. right. destruct nxt as [nxt |]; [| discriminate].
        exists nxt, records. repeat split; [exact Hn |].
        apply poll_shard_advanced; assumption.
      * right. left. split; [eauto |].
        eapply poll_shard_exhausted; eauto.
  - split; [reflexivity | apply poll_shard_skip, Hit].
Qed.

(** Case analysis along the four ways through [poll_shard]; the goal is
    rewritten with the state that each one leaves. *)
Ltac poll_shard_paths shard_id it s :=
  destruct (poll_shard_cases shard_id it s)
    as [[Hit ->] | [Hit [[_ ->] | [[_ ->] | (nxt & records & _ & _ & ->)]]]].

Lemma advanced_fields shard_id it nxt records s :
  shard_iterators (advanced clock shard_id it nxt records s)
  = dict_set shard_id nxt (shard_iterators s)
  /\ requests (advanced clock shard_id it nxt records s)
     = requests s ++ [(shard_id, it)].
Proof.
  unfold advanced. cbn zeta. destruct records as [| r records].
  - split; reflexivity.
  - destruct (process_records_iterators clock shard_id (r :: records)
      (print (LogReceived (length (r :: records)) shard_id)
         (set_consecutive_empty_responses 0
            (set_records_found true
               (set_shard_iterators
                  (dict_set shard_id nxt (shard_iterators s))
                  (request shard_id it s)))))) as [-> ->].
    split; reflexivity.
Qed.

Lemma exhausted_get shard_id it s :
  dict_get shard_id (shard_iterators (exhausted shard_id it s)) = None.
Proof.
  unfold exhausted. cbn zeta.
  destruct (dict_get shard_id (shard_iterators s)) eqn:E; cbn.
  - apply dict_get_del_eq.
  - exact E.
Qed.

Lemma exhausted_other shard_id it s id :
  shard_id <> id ->
  dict_get id (shard_iterators (exhausted shard_id it s))
  = dict_get id (shard_iterators s).
Proof.
  intros Hne. unfold exhausted. cbn zeta.
  destruct (dict_get shard_id (shard_iterators s)); cbn; [| reflexivity].
  apply dict_get_del_ne, Hne.
Qed.

Lemma exhausted_requests shard_id it s :
  requests (exhausted shard_id it s) = requests s ++ [(shard_id, it)].
Proof.
  unfold exhausted. cbn zeta.
  destruct (dict_get shard_id (shard_iterators s)); reflexivity.
Qed.

(** The records that come with the end of a shard are not ingested. *)
Lemma exhausted_ingested shard_id it s :
  ingested (exhausted shard_id it s) = ingested s.
Proof.
  unfold exhausted. cbn zeta.
  destruct (dict_get shard_id (shard_iterators s)); reflexivity.
Qed.

Lemma exhausted_NoDup shard_id it s :
  NoDup (dict_keys (shard_iterators s)) ->
  NoDup (dict_keys (shard_iterators (exhausted shard_id it s))).
Proof.
  intros Hnd. unfold exhausted. cbn zeta.
  destruct (dict_get shard_id (shard_iterators s)); cbn; [| exact Hnd].
  apply dict_del_NoDup, Hnd.
Qed.

(** Every shard that is polled makes one call, with its iterator. *)
Lemma poll_shard_requests shard_id it s :
  requests (poll_shard clock client shard_id it s)
  = requests s ++ (if str_truthy it then [(shard_id, it)] else []).
Proof.
  poll_shard_paths shard_id it s;
    rewrite Hit.
  - symmetry. apply app_nil_r.
  - reflexivity.
  - apply exhausted_requests.
  - apply advanced_fields.
Qed.

(** Polling a shard leaves the iterators of the other shards alone. *)
Lemma poll_shard_other shard_id it s id :
  shard_id <> id ->
  dict_get id (shard_iterators (poll_shard clock client shard_id it s))
  = dict_get id (shard_iterators s).
Proof.
  intros Hne.
  poll_shard_paths shard_id it s.
  - reflexivity.
  - reflexivity.
  - apply exhausted_other, Hne.
  - destruct (advanced_fields shard_id it nxt records s) as [-> _].
    apply dict_get_set_ne, Hne.
Qed.

Lemma poll_shard_NoDup shard_id it s :
  NoDup (dict_keys (shard_iterators s)) ->
  NoDup (dict_keys (shard_iterators (poll_shard clock client shard_id it s))).
Proof.
  intros Hnd.
  poll_shard_paths shard_id it s.
  - exact Hnd.
  - exact Hnd.
  - apply exhausted_NoDup, Hnd.
  - destruct (advanced_fields shard_id it nxt records s) as [-> _].
    apply dict_set_NoDup, Hnd.
Qed.

End ShardFacts.

(** ** One turn of the loop *)

Section CycleFacts.
Import Poller.
Context {U : Unicode} {L : Library}.
Variable clock : nat -> Z.
Variable client : nat -> string -> get_records_result.
Implicit Types (st s : state) (shard_id it : string)
  (snapshot : list (string * string)).

Lemma poll_shards_app (l1 l2 : list (string * string)) s :
  poll_shards clock client (l1 ++ l2) s
  = poll_shards clock client l2 (poll_shards clock client l1 s).
Proof. unfold poll_shards. apply fold_left_app. Qed.

Lemma poll_shards_cons shard_id it snapshot s :
  poll_shards clock client ((shard_id, it) :: snapshot) s
  = poll_shards clock client snapshot
      (poll_shard clock client shard_id it s).
Proof. reflexivity. Qed.

(** The calls of a turn: one for every iterator of the snapshot that is not
    empty, in order. *)
Lemma poll_shards_requests snapshot : forall s,
  requests (poll_shards clock client snapshot s)
  = requests s ++ List.filter polled snapshot.
Proof.
  induction snapshot as [| [shard_id it] snapshot IH]; intros s.
  - cbn. symmetry. apply app_nil_r.
  - rewrite poll_shards_cons, IH, poll_shard_requests. cbn.
    unfold polled at 2. cbn. destruct (str_truthy it).
    + rewrite <- app_assoc. reflexivity.
    + rewrite app_nil_r. reflexivity.
Qed.

Lemma poll_shards_other snapshot id : forall s,
  id ∉ dict_keys snapshot ->
  dict_get id (shard_iterators (poll_shards clock client snapshot s))
  = dict_get id (shard_iterators s).
Proof.
  induction snapshot as [| [shard_id it] snapshot IH]; intros s Hid.
  - reflexivity.
  - cbn in Hid. apply not_elem_of_cons in Hid as [Hne Hid].
    rewrite poll_shards_cons, IH by exact Hid.
    apply poll_shard_other. congruence.
Qed.

Lemma poll_shards_NoDup snapshot : forall s,
  NoDup (dict_keys (shard_iterators s)) ->
  NoDup (dict_keys (shard_iterators (poll_shards clock client snapshot s))).
Proof.
  induction snapshot as [| [shard_id it] snapshot IH]; intros s Hnd.
  - exact Hnd.
  - rewrite poll_shards_cons. apply IH, poll_shard_NoDup, Hnd.
Qed.

Lemma count_empty_cycle_fields s :
  shard_iterators (count_empty_cycle s) = shard_iterators s
  /\ requests (count_empty_cycle s) = requests s
  /\ ingested (count_empty_cycle s) = ingested s.
Proof.
  unfold count_empty_cycle. destruct (records_found s); [repeat split |].
  cbn. destruct (_ =? 1); [repeat split |].
  destruct (_ <=? _); repeat split.
Qed.

Lemma poll_cycle_turn st :
  poll_cycle clock client st
  = match shard_iterators (turn clock client st) with
    | [] =>
        (set_status_message "All shards exhausted"
           (print LogNoMoreActive (turn clock client st)), true)
    | _ => (turn clock client st, false)
    end.
Proof. reflexivity. Qed.

Lemma poll_cycle_fields st :
  shard_iterators (fst (poll_cycle clock client st))
  = shard_iterators
      (poll_shards clock client (shard_iterators st)
         (set_records_found false st))
  /\ requests (fst (poll_cycle clock client st))
     = requests st ++ List.filter polled (shard_iterators st).
Proof.
  rewrite poll_cycle_turn.
  assert (Hit : shard_iterators (turn clock client st)
                = shard_iterators
                    (poll_shards clock client (shard_iterators st)
                       (set_records_found false st)))
    by apply count_empty_cycle_fields.
  assert (Hrq : requests (turn clock client st)
                = requests st ++ List.filter polled (shard_iterators st)).
  { unfold turn.
    destruct (count_empty_cycle_fields
                (poll_shards clock client (shard_iterators st)
                   (set_records_found false st))) as (_ & -> & _).
    rewrite poll_shards_requests. reflexivity. }
  destruct (shard_iterators (turn clock client st)) eqn:E; cbn; rewrite <- Hit, ?E;
    split; auto.
Qed.

(** The loop is left exactly when no iterator remains, and then the status
    is the final one. *)
Lemma poll_cycle_stop st :
  (snd (poll_cycle clock client st) = true
   <-> shard_iterators (fst (poll_cycle clock client st)) = [])
  /\ (snd (poll_cycle clock client st) = true ->
      status_message (fst (poll_cycle clock client st))
      = "All shards exhausted").
Proof.
  rewrite poll_cycle_turn.
  destruct (shard_iterators (turn clock client st)) eqn:E; cbn.
  - repeat split; auto.
  - rewrite E. repeat split; discriminate.
Qed.

Lemma poll_loop_stop (n : nat) st :
  snd (poll_cycle clock client st) = true ->
  poll_loop clock client (S n) st = poll_cycle clock client st.
Proof.
  intros H. cbn. destruct (poll_cycle clock client st) as [st' stop].
  cbn in H. subst stop. reflexivity.
Qed.

Lemma poll_loop_continue (n : nat) st :
  snd (poll_cycle clock client st) = false ->
  poll_loop clock client (S n) st
  = poll_loop clock client n (fst (poll_cycle clock client st)).
Proof.
  intros H. cbn. destruct (poll_cycle clock client st) as [st' stop].
  cbn in H. subst stop. reflexivity.
Qed.

Lemma filter_polled_keys snapshot id :
  id ∉ dict_keys snapshot -> id ∉ map fst (List.filter polled snapshot).
Proof.
  unfold dict_keys. intros Hid Hin. apply Hid.
  apply list_elem_of_fmap in Hin as (kv & -> & Hkv).
  apply list_elem_of_In, filter_In in Hkv as [Hkv _].
  apply list_elem_of_fmap. exists kv. split; [reflexivity |].
  apply list_elem_of_In, Hkv.
Qed.

(** A shard without an entry is never polled and never gets one. *)
Lemma poll_loop_absent id (n : nat) : forall st,
  dict_get id (shard_iterators st) = None ->
  dict_get id (shard_iterators (fst (poll_loop clock client n st))) = None
  /\ exists extra,
       requests (fst (poll_loop clock client n st)) = requests st ++ extra
       /\ id ∉ map fst extra.
Proof.
  induction n as [| n IH]; intros st Hnone.
  - cbn. split; [exact Hnone |]. exists []. split.
    + symmetry. apply app_nil_r.
    + apply not_elem_of_nil.
  - destruct (poll_cycle_fields st) as [Hit Hrq].
    assert (Hkeys : id ∉ dict_keys (shard_iterators st))
      by (apply dict_get_None, Hnone).
    assert (Hnone1 : dict_get id
                       (shard_iterators (fst (poll_cycle clock client st)))
                     = None).
    { rewrite Hit, poll_shards_other by exact Hkeys. exact Hnone. }
    destruct (snd (poll_cycle clock client st)) eqn:Hstop.
    + rewrite poll_loop_stop by exact Hstop.
      split; [exact Hnone1 |].
      exists (List.filter polled (shard_iterators st)).
      split; [exact Hrq | apply filter_polled_keys, Hkeys].
    + rewrite poll_loop_continue by exact Hstop.
      destruct (IH _ Hnone1) as (Hn & extra & Hextra & Hid).
      split; [exact Hn |].
      exists (List.filter polled (shard_iterators st) ++ extra).
      split.
      * rewrite Hextra, Hrq, <- app_assoc. reflexivity.
      * rewrite map_app, not_elem_of_app.
        split; [apply filter_polled_keys, Hkeys | exact Hid].
Qed.

End CycleFacts.

(** ** Exhausted shards and failed calls *)

Section LoopFacts.
Import Poller.
Context {U : Unicode} {L : Library}.
Variable clock : nat -> Z.
Variable client : nat -> string -> get_records_result.
Implicit Types (st s : state) (shard_id it : string)
  (before after : list (string * string)).

Lemma occurrences_app {K} `{EqDecision K} (k : K) (l1 l2 : list K) :
  occurrences k (l1 ++ l2) = (occurrences k l1 + occurrences k l2)%nat.
Proof. unfold occurrences. rewrite List.filter_app. apply length_app. Qed.

Lemma split_keys shard_id it before after :
  NoDup (dict_keys (before ++ (shard_id, it) :: after)) ->
  (shard_id ∉ dict_keys before) /\ (shard_id ∉ dict_keys after).
Proof.
  unfold dict_keys. rewrite map_app. cbn. intros Hnd.
  apply NoDup_app in Hnd as (_ & Hba & Ha).
  apply NoDup_cons in Ha as [Ha _].
  split; [| exact Ha].
  intros Hb. apply (Hba _ Hb). left.
Qed.

(** The calls of one turn contain the shard once. *)
Lemma polled_once shard_id it before after :
  NoDup (dict_keys (before ++ (shard_id, it) :: after)) ->
  str_truthy it = true ->
  occurrences shard_id
    (map fst (List.filter polled (before ++ (shard_id, it) :: after)))
  = 1%nat.
Proof.
  intros Hnd Hit. destruct (split_keys _ _ _ _ Hnd) as [Hb Ha].
  rewrite List.filter_app, map_app, occurrences_app. cbn.
  unfold polled at 2. cbn. rewrite Hit. cbn.
  rewrite (occurrences_notin _ _ (filter_polled_keys _ _ Hb)).
  unfold occurrences. cbn. rewrite bool_decide_eq_true_2 by reflexivity.
  cbn. f_equal.
  apply (occurrences_notin _ _ (filter_polled_keys _ _ Ha)).
Qed.

(** The entry of a shard at the end of a turn is the one that its own poll
    leaves. *)
Lemma poll_cycle_entry st shard_id it before after :
  shard_iterators st = before ++ (shard_id, it) :: after ->
  NoDup (dict_keys (shard_iterators st)) ->
  dict_get shard_id (shard_iterators (fst (poll_cycle clock client st)))
  = dict_get shard_id
      (shard_iterators
         (poll_shard clock client shard_id it
            (poll_shards clock client before (set_records_found false st))))
  /\ dict_get shard_id
       (shard_iterators
          (poll_shards clock client before (set_records_found false st)))
     = Some it.
Proof.
  intros Hsplit Hnd. rewrite Hsplit in Hnd.
  destruct (split_keys _ _ _ _ Hnd) as [Hb Ha].
  destruct (poll_cycle_fields clock client st) as [-> _].
  rewrite Hsplit at 1. rewrite poll_shards_app, poll_shards_cons.
  rewrite poll_shards_other by exact Ha.
  split; [reflexivity |].
  rewrite poll_shards_other by exact Hb. cbn. rewrite Hsplit.
  apply dict_elem_get; [exact Hnd |].
  apply elem_of_app. right. left.
Qed.

(** What is asked of a shard after the start of a run of the loop. *)
Lemma poll_loop_requests st shard_id it before after (n : nat) :
  shard_iterators st = before ++ (shard_id, it) :: after ->
  NoDup (dict_keys (shard_iterators st)) ->
  str_truthy it = true ->
  dict_get shard_id (shard_iterators (fst (poll_cycle clock client st)))
  = None ->
  let st' := fst (poll_loop clock client (S n) st) in
  dict_get shard_id (shard_iterators st') = None
  /\ occurrences shard_id (map fst (requested st st')) = 1%nat.
Proof.
  intros Hsplit Hnd Hit Hnone. cbn zeta.
  destruct (poll_cycle_fields clock client st) as [_ Hrq].
  assert (Honce : occurrences shard_id
                    (map fst (List.filter polled (shard_iterators st)))
                  = 1%nat).
  { rewrite Hsplit. apply polled_once; [| exact Hit].
    rewrite <- Hsplit. exact Hnd. }
  destruct (snd (poll_cycle clock client st)) eqn:Hstop.
  - rewrite poll_loop_stop by exact Hstop.
    split; [exact Hnone |].
    unfold requested. rewrite Hrq, drop_app_length. exact Honce.
  - rewrite poll_loop_continue by exact Hstop.
    destruct (poll_loop_absent clock client shard_id n _ Hnone)
      as (Hn & extra & Hextra & Hid).
    split; [exact Hn |].
    unfold requested. rewrite Hextra, Hrq, <- app_assoc, drop_app_length.
    rewrite map_app, occurrences_app, Honce.
    rewrite (occurrences_notin _ _ Hid). reflexivity.
Qed.

(** C5. When the pull for a shard returns a response without a next
    iterator, whatever records it carries, the shard loses its entry at
    once; the entry never comes back and the shard is not polled again, so
    that the pull was its last call; and when the turn leaves no shard with
    an entry, the loop ends there with the status "All shards exhausted",
    however many turns it was given. *)
Theorem exhausted_shard_removed st shard_id it before after nxt records :
  shard_iterators st = before ++ (shard_id, it) :: after ->
  NoDup (dict_keys (shard_iterators st)) ->
  str_truthy it = true ->
  let s := poll_shards clock client before (set_records_found false st) in
  client (length (requests s)) it = Response nxt records ->
  iterator_truthy nxt = false ->
  dict_get shard_id (shard_iterators (poll_shard clock client shard_id it s))
  = None
  /\ (forall n : nat,
        let st' := fst (poll_loop clock client (S n) st) in
        dict_get shard_id (shard_iterators st') = None
        /\ occurrences shard_id (map fst (requested st st')) = 1%nat)
  /\ ((forall id, id ∈ dict_keys (shard_iterators st) ->
         dict_get id (shard_iterators (fst (poll_cycle clock client st)))
         = None) ->
      forall n : nat,
        poll_loop clock client (S n) st = poll_cycle clock client st
        /\ snd (poll_cycle clock client st) = true
        /\ shard_iterators (fst (poll_cycle clock client st)) = []
        /\ status_message (fst (poll_cycle clock client st))
           = "All shards exhausted").
Proof.
  intros Hsplit Hnd Hit s Hresp Hnxt.
  assert (Hgone : dict_get shard_id
            (shard_iterators (poll_shard clock client shard_id it s)) = None).
  { rewrite (poll_shard_exhausted clock client _ _ _ _ _ Hit Hresp Hnxt).
    apply exhausted_get. }
  split; [exact Hgone |]. split.
  - intros n. apply (poll_loop_requests st shard_id it before after n);
      try assumption.
    destruct (poll_cycle_entry st shard_id it before after Hsplit Hnd)
      as [-> _].
    exact Hgone.
  - intros Hall n.
    assert (Hempty : shard_iterators (fst (poll_cycle clock client st)) = []).
    { apply dict_all_None. intros id.
      destruct (decide (id ∈ dict_keys (shard_iterators st))) as [Hin | Hout];
        [apply Hall, Hin |].
      destruct (poll_cycle_fields clock client st) as [-> _].
      rewrite poll_shards_other by exact Hout.
      apply dict_get_None, Hout. }
    destruct (poll_cycle_stop clock client st) as [Hiff Hstatus].
    assert (Hstop : snd (poll_cycle clock client st) = true)
      by (apply Hiff, Hempty).
    split; [apply poll_loop_stop, Hstop |].
    split; [exact Hstop |]. split; [exact Hempty | apply Hstatus, Hstop].
Qed.

(** C6. When the pull for a shard raises, the shard keeps its entry with
    the iterator it had, the loop goes on, every shard whose iterator is not
    empty is polled in that turn as in any other, the failed call changes
    neither the store nor the reviews nor the total, and the next turn polls
    the shard with the same iterator. *)
Theorem failed_pull_retried st shard_id it before after e :
  shard_iterators st = before ++ (shard_id, it) :: after ->
  NoDup (dict_keys (shard_iterators st)) ->
  str_truthy it = true ->
  let s := poll_shards clock client before (set_records_found false st) in
  client (length (requests s)) it = Raises e ->
  let st1 := fst (poll_cycle clock client st) in
  dict_get shard_id (shard_iterators st1) = Some it
  /\ snd (poll_cycle clock client st) = false
  /\ requested st st1 = List.filter polled (shard_iterators st)
  /\ ingested (poll_shard clock client shard_id it s) = ingested s
  /\ (shard_id, it) ∈ requested st1 (fst (poll_cycle clock client st1)).
Proof.
  intros Hsplit Hnd Hit s Hresp. cbn zeta.
  destruct (poll_cycle_entry st shard_id it before after Hsplit Hnd)
    as [Hentry Hbefore].
  fold s in Hentry, Hbefore.
  rewrite (poll_shard_raises clock client _ _ _ _ Hit Hresp) in Hentry.
  cbn in Hentry. rewrite Hbefore in Hentry.
  split; [exact Hentry |].
  split.
  { destruct (poll_cycle_stop clock client st) as [Hiff _].
    destruct (snd (poll_cycle clock client st)); [| reflexivity].
    rewrite (proj1 Hiff eq_refl) in Hentry. discriminate. }
  split.
  { destruct (poll_cycle_fields clock client st) as [_ Hrq].
    unfold requested. rewrite Hrq. apply drop_app_length. }
  split.
  { rewrite (poll_shard_raises clock client _ _ _ _ Hit Hresp). reflexivity. }
  destruct (poll_cycle_fields clock client (fst (poll_cycle clock client st)))
    as [_ Hrq].
  unfold requested. rewrite Hrq, drop_app_length.
  apply list_elem_of_In, filter_In. split.
  - apply list_elem_of_In, dict_get_Some_elem, Hentry.
  - exact Hit.
Qed.

End LoopFacts.

(** ** The iterators of a run *)

Section RunFacts.
Import Poller.
Context {U : Unicode} {L : Library}.
Variable clock : nat -> Z.
Variable client : nat -> string -> get_records_result.

(** The dictionary built at start-up has every shard once. *)
Lemma initial_iterators_NoDup (shards : list (string * option string)) :
  NoDup (dict_keys (initial_iterators shards)).
Proof.
  unfold initial_iterators.
  assert (H : forall d : list (string * string),
            NoDup (dict_keys d) ->
            NoDup (dict_keys
                     (fold_left
                        (fun d '(shard_id, it) =>
                           match it with
                           | Some i => dict_set shard_id i d
                           | None => d
                           end) shards d))).
  { induction shards as [| [shard_id [i |]] shards IH]; intros d Hd; cbn.
    - exact Hd.
    - apply IH, dict_set_NoDup, Hd.
    - apply IH, Hd. }
  apply H. constructor.
Qed.

Lemma poll_cycle_NoDup (st : state) :
  NoDup (dict_keys (shard_iterators st)) ->
  NoDup (dict_keys (shard_iterators (fst (poll_cycle clock client st)))).
Proof.
  intros Hnd. destruct (poll_cycle_fields clock client st) as [-> _].
  apply poll_shards_NoDup. exact Hnd.
Qed.

(** Every state of a run has every shard at most once. *)
Lemma poll_loop_NoDup (n : nat) : forall st : state,
  NoDup (dict_keys (shard_iterators st)) ->
  NoDup (dict_keys (shard_iterators (fst (poll_loop clock client n st)))).
Proof.
  induction n as [| n IH]; intros st Hnd; [exact Hnd |].
  destruct (snd (poll_cycle clock client st)) eqn:Hstop.
  - rewrite poll_loop_stop by exact Hstop. apply poll_cycle_NoDup, Hnd.
  - rewrite poll_loop_continue by exact Hstop.
    apply IH, poll_cycle_NoDup, Hnd.
Qed.

Lemma run_NoDup (n : nat) (shards : list (string * option string)) :
  NoDup (dict_keys
           (shard_iterators
              (fst (poll_loop clock client n (initial_state shards))))).
Proof. apply poll_loop_NoDup, initial_iterators_NoDup. Qed.

End RunFacts.

Section LoopExamples.
Import Poller.
Local Existing Instance Ascii7.ascii_unicode.
Local Existing Instance Ascii7.library.

(** The records that arrive with the end of a shard are not ingested,
    whatever they are. *)
Lemma final_batch_not_ingested clock client shard_id it s nxt records :
  str_truthy it = true ->
  client (length (requests s)) it = Response nxt records ->
  iterator_truthy nxt = false ->
  ingested (poll_shard clock client shard_id it s) = ingested s.
Proof.
  intros Hit Hresp Hnxt.
  rewrite (poll_shard_exhausted clock client _ _ _ _ _ Hit Hresp Hnxt).
  apply exhausted_ingested.
Qed.

(** C1 on the code. The one response of the shard carries a well-formed
    review and no next iterator: the turn ends with no review ingested and
    with no line of output about the record, and the loop is left. The same
    batch with a next iterator is ingested. *)
Theorem final_batch_lost :
  let st := initial_state [("shard-0", Some "it-0")] in
  let lost := poll_cycle Ascii7.noon Ascii7.final_batch st in
  let kept := poll_cycle Ascii7.noon Ascii7.open_batch st in
  requested st (fst lost) = [("shard-0", "it-0")]
  /\ total_reviews (fst lost) = 0
  /\ reviews (fst lost) = []
  /\ items (Analyzer.all_messages (window_analyzer (fst lost))) = []
  /\ printed st (fst lost)
     = [LogNoMoreIterator "shard-0"; LogNoNewRecords; LogNoMoreActive]
  /\ snd lost = true
  /\ total_reviews (fst kept) = 1
  /\ length (items (Analyzer.all_messages (window_analyzer (fst kept))))
     = 1%nat.
Proof. vm_compute. repeat split. Qed.

Lemma exhausted_shard_removed_witness :
  dict_get "shard-0"
    (shard_iterators
       (poll_shard Ascii7.noon Ascii7.final_batch "shard-0" "it-0"
          (poll_shards Ascii7.noon Ascii7.final_batch []
             (set_records_found false Ascii7.two_shards))))
  = None.
Proof.
  refine (proj1 (exhausted_shard_removed Ascii7.noon Ascii7.final_batch
                   Ascii7.two_shards "shard-0" "it-0" []
                   [("shard-1", "it-1")] None
                   [Ascii7.body (Ascii7.text_object "great service")]
                   _ _ _ _ _)).
  - vm_compute. reflexivity.
  - vm_compute. apply NoDup_cons. split; [| apply NoDup_singleton].
    intros H. apply list_elem_of_singleton in H. discriminate.
  - reflexivity.
  - vm_compute. reflexivity.
  - reflexivity.
Defined.

(** Two shards that end in the same turn: the loop stops after it. *)
Example all_shards_exhausted :
  let run := poll_loop Ascii7.noon Ascii7.final_batch 5 Ascii7.two_shards in
  snd run = true
  /\ status_message (fst run) = "All shards exhausted"
  /\ shard_iterators (fst run) = []
  /\ requests (fst run) = [("shard-0", "it-0"); ("shard-1", "it-1")].
Proof. vm_compute. repeat split. Qed.

Lemma failed_pull_retried_witness :
  dict_get "shard-0"
    (shard_iterators (fst (poll_cycle Ascii7.noon Ascii7.flaky
                             Ascii7.two_shards)))
  = Some "it-0".
Proof.
  refine (proj1 (failed_pull_retried Ascii7.noon Ascii7.flaky
                   Ascii7.two_shards "shard-0" "it-0" []
                   [("shard-1", "it-1")] "timeout" _ _ _ _)).
  - vm_compute. reflexivity.
  - vm_compute. apply NoDup_cons. split; [| apply NoDup_singleton].
    intros H. apply list_elem_of_singleton in H. discriminate.
  - reflexivity.
  - vm_compute. reflexivity.
Defined.

(** A failure of one shard: the other is polled and advances, and the next
    turn asks again with the same iterator. *)
Example flaky_run :
  let run := poll_loop Ascii7.noon Ascii7.flaky 2 Ascii7.two_shards in
  snd run = false
  /\ shard_iterators (fst run) = [("shard-0", "it-0"); ("shard-1", "it-2")]
  /\ requests (fst run)
     = [("shard-0", "it-0"); ("shard-1", "it-1");
        ("shard-0", "it-0"); ("shard-1", "it-2")].
Proof. vm_compute. repeat split. Qed.

End LoopExamples.

(** ** What the loop ingests *)

Section IngestFacts.
Import Poller.
Context {U : Unicode} {L : Library}.
Variable clock : nat -> Z.
Implicit Types (st : state) (r : record) (shard_id : string).

Lemma get_sentiment_label (s : string) :
  known_label (Some (fst (get_sentiment s))) = true.
Proof.
  unfold get_sentiment.
  destruct (textblob_polarity s) as [p |]; [| reflexivity].
  destruct (float_gt p _); [reflexivity |].
  destruct (float_lt p _); reflexivity.
Qed.

(** A record without a text to ingest leaves everything but the output and
    the clock as it is. *)
Lemma process_record_rejected shard_id r st :
  review_text r = None ->
  ingested (process_record clock shard_id r st) = ingested st.
Proof.
  unfold review_text, process_record, record_error.
  destruct (decode r) as [d |]; [| reflexivity].
  destruct (json_loads d) as [parsed |]; [| reflexivity].
  destruct parsed; try reflexivity.
  cbn zeta. destruct (o !! "text") as [j |] eqn:Ho;
    cbn [default from_option id]; [| reflexivity].
  intros H.
  destruct j as [| b | z | [q | neg |] | s | [| j l] | o'];
    cbn [json_truthy];
    repeat match goal with
           | |- context [if ?b then _ else _] => destruct b eqn:?
           end; try reflexivity.
  discriminate.
Qed.

Lemma process_record_accepted shard_id r st s :
  review_text r = Some s ->
  exists st0,
    silent st0 = silent st
    /\ process_record clock shard_id r st = add_review clock s st0.
Proof.
  unfold review_text, process_record.
  destruct (decode r) as [d |]; [| discriminate].
  destruct (json_loads d) as [parsed |]; [| discriminate].
  destruct parsed; try discriminate.
  cbn zeta. destruct (o !! "text") as [j |]; [| discriminate].
  destruct j; try discriminate. cbn [default from_option id json_truthy].
  destruct (str_truthy s0) eqn:Hs; [| discriminate].
  intros [= ->]. eexists. split; [| reflexivity]. reflexivity.
Qed.

Lemma add_review_ingested s st :
  ingested (add_review clock s st)
  = (Analyzer.Analyzer
       (deque_append
          (review_of s (clock (clock_reads st)) (clock (S (clock_reads st))))
          (Analyzer.all_messages (window_analyzer st))),
     reviews st
     ++ [review_of s (clock (clock_reads st)) (clock (S (clock_reads st)))],
     total_reviews st + 1).
Proof.
  unfold add_review, review_of. destruct (get_sentiment s) as [label score].
  reflexivity.
Qed.

Lemma review_text_truthy r s : review_text r = Some s -> str_truthy s = true.
Proof.
  unfold review_text.
  destruct (decode r) as [d |]; [| discriminate].
  destruct (json_loads d) as [[| | | | | | o] |]; try discriminate.
  destruct (o !! "text") as [[| | | | s0 | |] |]; try discriminate.
  destruct (str_truthy s0) eqn:E; [| discriminate].
  intros [= ->]. exact E.
Qed.

Lemma review_of_stored s (now_obj now_add : Z) :
  str_truthy s = true -> stored_review (review_of s now_obj now_add).
Proof.
  intros Hs. unfold stored_review, review_of. cbn.
  split; [exists s; auto |].
  split; [apply get_sentiment_label |].
  repeat split; eexists; reflexivity.
Qed.

(** What a record does to the reviews, the store and the total. *)
Lemma process_record_ingested shard_id r st :
  ingested (process_record clock shard_id r st)
  = match review_text r with
    | None => ingested st
    | Some s =>
        let m := review_of s (clock (clock_reads st))
                   (clock (S (clock_reads st))) in
        (Analyzer.Analyzer
           (deque_append m (Analyzer.all_messages (window_analyzer st))),
         reviews st ++ [m], total_reviews st + 1)
    end.
Proof.
  destruct (review_text r) as [s |] eqn:Hr.
  - destruct (process_record_accepted shard_id r st s Hr) as (st0 & H0 & ->).
    rewrite add_review_ingested.
    destruct st0, st. unfold silent in H0. cbn in H0. inversion H0; subst.
    reflexivity.
  - apply process_record_rejected, Hr.
Qed.

Lemma process_record_in_step shard_id r st :
  in_step (ingested st) ->
  in_step (ingested (process_record clock shard_id r st)).
Proof.
  rewrite process_record_ingested.
  destruct (review_text r) as [s |] eqn:Hr; [| auto].
  unfold ingested at 1. cbn zeta. intros (Htotal & Hmax & Hitems & Hall).
  unfold in_step. cbn [Analyzer.all_messages].
  split; [rewrite length_app; cbn; lia |].
  split; [exact Hmax |].
  split.
  - rewrite <- Hmax. apply deque_append_history. rewrite Hmax. exact Hitems.
  - apply Forall_app. split; [exact Hall |].
    constructor; [| constructor].
    apply review_of_stored. eapply review_text_truthy, Hr.
Qed.

Lemma process_records_texts shard_id (records : list record) : forall st,
  let st' := process_records clock shard_id records st in
  map Analyzer.text (reviews st')
  = map Analyzer.text (reviews st) ++ map Some (omap review_text records)
  /\ total_reviews st'
     = total_reviews st + Z.of_nat (length (omap review_text records)).
Proof.
  unfold process_records.
  induction records as [| r records IH]; intros st; cbn zeta.
  - cbn. rewrite app_nil_r. split; [reflexivity | lia].
  - cbn [fold_left].
    destruct (IH (process_record clock shard_id r st)) as [-> ->].
    change (omap review_text (r :: records))
      with (match review_text r with
            | Some s => s :: omap review_text records
            | None => omap review_text records
            end).
    pose proof (process_record_ingested shard_id r st) as Hr.
    unfold ingested in Hr at 1.
    destruct (review_text r) as [s |]; cbn zeta in Hr.
    + inversion Hr as [[Ha Hb Hc]]. rewrite Hb, Hc, map_app.
      cbn [map length]. rewrite <- app_assoc. split; [reflexivity | lia].
    + unfold ingested in Hr. inversion Hr as [[Ha Hb Hc]].
      rewrite Hb, Hc. split; reflexivity.
Qed.
End IngestFacts.

(** ** Invariants of a run *)

Section RunInvariants.
Import Poller.
Context {U : Unicode} {L : Library}.
Variable clock : nat -> Z.
Variable client : nat -> string -> get_records_result.
Implicit Types (st s : state) (shard_id it : string).

Lemma advanced_ingested shard_id it nxt (records : list record) s :
  exists s0,
    ingested s0 = ingested s
    /\ clock_reads s0 = clock_reads s
    /\ advanced clock shard_id it nxt records s
       = process_records clock shard_id records s0.
Proof.
  unfold advanced. cbn zeta. destruct records as [| r records].
  - eexists. split; [| split]; [| | reflexivity]; reflexivity.
  - eexists. split; [| split]; [| | reflexivity]; reflexivity.
Qed.

Section Preserved.
Variable P : Analyzer.SlidingWindowAnalyzer * list Analyzer.message * Z -> Prop.
Hypothesis record_step : forall shard_id r st,
  P (ingested st) -> P (ingested (process_record clock shard_id r st)).

Lemma process_records_preserve shard_id (records : list record) : forall st,
  P (ingested st) -> P (ingested (process_records clock shard_id records st)).
Proof.
  unfold process_records.
  induction records as [| r records IH]; intros st H; cbn; [exact H |].
  apply IH, record_step, H.
Qed.

Lemma poll_shard_preserve shard_id it s :
  P (ingested s) -> P (ingested (poll_shard clock client shard_id it s)).
Proof.
  intros H.
  destruct (poll_shard_cases clock client shard_id it s)
    as [[Hit ->] | [Hit [[_ ->] | [[_ ->] | (nxt & records & _ & _ & ->)]]]].
  - exact H.
  - exact H.
  - rewrite exhausted_ingested. exact H.
  - destruct (advanced_ingested shard_id it nxt records s)
      as (s0 & H0 & _ & ->).
    apply process_records_preserve. rewrite H0. exact H.
Qed.

Lemma poll_shards_preserve (snapshot : list (string * string)) : forall s,
  P (ingested s) -> P (ingested (poll_shards clock client snapshot s)).
Proof.
  induction snapshot as [| [shard_id it] snapshot IH]; intros s H.
  - exact H.
  - rewrite poll_shards_cons. apply IH, poll_shard_preserve, H.
Qed.

Lemma poll_cycle_preserve st :
  P (ingested st) -> P (ingested (fst (poll_cycle clock client st))).
Proof.
  intros H.
  assert (Hturn : P (ingested (turn clock client st))).
  { unfold turn.
    destruct (count_empty_cycle_fields
                (poll_shards clock client (shard_iterators st)
                   (set_records_found false st))) as (_ & _ & ->).
    apply poll_shards_preserve. exact H. }
  rewrite poll_cycle_turn.
  destruct (shard_iterators (turn clock client st)); exact Hturn.
Qed.

Lemma poll_loop_preserve (n : nat) : forall st,
  P (ingested st) -> P (ingested (fst (poll_loop clock client n st))).
Proof.
  induction n as [| n IH]; intros st H; [exact H |].
  destruct (snd (poll_cycle clock client st)) eqn:Hstop.
  - rewrite poll_loop_stop by exact Hstop. apply poll_cycle_preserve, H.
  - rewrite poll_loop_continue by exact Hstop.
    apply IH, poll_cycle_preserve, H.
Qed.

End Preserved.

Lemma initial_in_step (shards : list (string * option string)) :
  in_step (ingested (initial_state shards)).
Proof.
  unfold in_step, ingested, initial_state. cbn.
  repeat split; constructor.
Qed.

(** X1. A batch that comes with a next iterator is ingested in order: the
    texts that the reviews gain are those of the records that decode to a
    JSON object with a non-empty string under ["text"], each once and in the
    order of the batch, and the total grows by their number. *)
Theorem batch_ingested_in_order shard_id it s nxt (records : list record) :
  str_truthy it = true ->
  client (length (requests s)) it = Response (Some nxt) records ->
  str_truthy nxt = true ->
  let s' := poll_shard clock client shard_id it s in
  map Analyzer.text (reviews s')
  = map Analyzer.text (reviews s) ++ map Some (omap review_text records)
  /\ total_reviews s'
     = total_reviews s + Z.of_nat (length (omap review_text records)).
Proof.
  intros Hit Hresp Hnxt. cbn zeta.
  rewrite (poll_shard_advanced clock client _ _ _ _ _ Hit Hresp Hnxt).
  destruct (advanced_ingested shard_id it nxt records s)
    as (s0 & H0 & _ & ->).
  destruct (process_records_texts clock shard_id records s0) as [-> ->].
  unfold ingested in H0. inversion H0 as [[Ha Hb Hc]].
  rewrite Hb, Hc. split; reflexivity.
Qed.

(** X2. In every state of every run of the loop the total is the number of
    reviews, the store holds the last 10000 reviews in the order of the list,
    and every review has a non-empty text, one of the three labels, a score,
    a word count and its time of arrival. *)
Theorem run_in_step (n : nat) (shards : list (string * option string)) :
  in_step (ingested (fst (poll_loop clock client n (initial_state shards)))).
Proof.
  apply poll_loop_preserve.
  - intros shard_id r st. apply process_record_in_step.
  - apply initial_in_step.
Qed.

End RunInvariants.

Section RunInvariantsExamples.
Import Poller.
Local Existing Instance Ascii7.ascii_unicode.
Local Existing Instance Ascii7.library.

Lemma batch_ingested_in_order_witness :
  total_reviews
    (poll_shard Ascii7.noon Ascii7.open_batch "shard-0" "it-0"
       Ascii7.two_shards)
  = total_reviews Ascii7.two_shards
    + Z.of_nat
        (length (omap review_text
                   [Ascii7.body (Ascii7.text_object "great service")])).
Proof.
  refine (proj2 (batch_ingested_in_order Ascii7.noon Ascii7.open_batch
                   "shard-0" "it-0" Ascii7.two_shards "it-next"
                   [Ascii7.body (Ascii7.text_object "great service")]
                   _ _ _)).
  - reflexivity.
  - reflexivity.
  - reflexivity.
Defined.

End RunInvariantsExamples.

(** ** Labels of a run *)

Section RunLabels.
Import Poller.
Context {U : Unicode} {L : Library}.
Variable clock : nat -> Z.
Variable client : nat -> string -> get_records_result.

(** The four entries of the statistics. *)
Lemma sentiment_stats_values (qclock : nat -> Z) (d : Z)
    (self : Analyzer.SlidingWindowAnalyzer) :
  let window := Analyzer.get_messages_in_window qclock d self in
  let stats := Analyzer.get_sentiment_stats qclock d self in
  stats !! "positive" = Some (count_label (label_is "Positive") window)
  /\ stats !! "negative" = Some (count_label (label_is "Negative") window)
  /\ stats !! "neutral" = Some (count_label label_neutral window)
  /\ stats !! "total" = Some (length window).
Proof.
  cbn zeta. unfold Analyzer.get_sentiment_stats.
  destruct (Analyzer.get_messages_in_window qclock d self) as [| m w] eqn:E;
    [repeat split |].
  split; [| split; [| split]].
  - rewrite lookup_insert_eq, counter_get_Counter. f_equal.
    apply occurrences_labels. intros o. now apply label_is_default.
  - rewrite lookup_insert_ne, lookup_insert_eq, counter_get_Counter by done.
    f_equal. apply occurrences_labels. intros o. now apply label_is_default.
  - rewrite !lookup_insert_ne, lookup_insert_eq, counter_get_Counter by done.
    f_equal. apply occurrences_labels, label_neutral_default.
  - reflexivity.
Qed.

Lemma known_not_unknown (o : option string) :
  known_label o = true -> label_unknown o = false.
Proof.
  unfold known_label, label_is, label_unknown.
  destruct o as [l |]; [| reflexivity].
  intros H. apply negb_false_iff, bool_decide_eq_true.
  repeat (apply orb_true_iff in H as [H | H]);
    apply bool_decide_eq_true in H; injection H as ->; auto.
Qed.

Lemma count_unknown_zero (window : list Analyzer.message) :
  Forall stored_review window -> count_label label_unknown window = 0%nat.
Proof.
  unfold count_label. induction 1 as [| m w Hm _ IH]; [reflexivity |].
  cbn. destruct Hm as (_ & Hl & _).
  rewrite (known_not_unknown _ Hl). exact IH.
Qed.

Lemma Forall_sublist {A} (P : A -> Prop) (l1 l2 : list A) :
  l1 `sublist_of` l2 -> Forall P l2 -> Forall P l1.
Proof.
  intros Hsub Hall. apply Forall_forall. intros x Hx.
  rewrite Forall_forall in Hall. apply Hall.
  eapply elem_of_sublist; eauto.
Qed.

(** X3. On the store of any run of the loop, whatever the window, the
    three sentiment counts of [get_sentiment_stats] add up to its total: no
    stored review has a label outside the three. *)
Theorem run_counts_add_up (n : nat) (shards : list (string * option string))
    (qclock : nat -> Z) (d : Z) :
  let self :=
    window_analyzer (fst (poll_loop clock client n (initial_state shards))) in
  let stats := Analyzer.get_sentiment_stats qclock d self in
  exists positive negative neutral : nat,
    stats !! "positive" = Some positive
    /\ stats !! "negative" = Some negative
    /\ stats !! "neutral" = Some neutral
    /\ stats !! "total" = Some (positive + negative + neutral)%nat.
Proof.
  cbn zeta.
  set (st := fst (poll_loop clock client n (initial_state shards))).
  assert (Hstep : in_step (ingested st)).
  { apply (poll_loop_preserve clock client in_step).
    - intros shard_id r s. apply process_record_in_step.
    - apply initial_in_step. }
  destruct Hstep as (_ & _ & Hitems & Hall).
  set (window := Analyzer.get_messages_in_window qclock d (window_analyzer st)).
  assert (Hwin : Forall stored_review window).
  { apply (Forall_sublist _ _ (items (Analyzer.all_messages
                                         (window_analyzer st)))).
    - apply window_from_sublist.
    - rewrite Hitems. apply Forall_drop, Hall. }
  destruct (sentiment_stats_values qclock d (window_analyzer st))
    as (Hp & Hn & Hu & Ht).
  exists (count_label (label_is "Positive") window),
         (count_label (label_is "Negative") window),
         (count_label label_neutral window).
  split; [exact Hp |]. split; [exact Hn |]. split; [exact Hu |].
  rewrite Ht. f_equal. fold window.
  rewrite (labels_partition window), (count_unknown_zero window Hwin). lia.
Qed.

End RunLabels.

(** ** Advancing and waiting *)

Section AdvanceFacts.
Import Poller.
Context {U : Unicode} {L : Library}.
Variable clock : nat -> Z.
Variable client : nat -> string -> get_records_result.
Implicit Types (st s : state) (shard_id it : string)
  (before after : list (string * string)).

(** X4. When the pull for a shard returns a next iterator, with or without
    records, the shard keeps its place in the dictionary with the next
    iterator as its value, an empty batch changes neither the store nor the
    reviews nor the total, the loop goes on, and the next turn polls the
    shard with the next iterator. *)
Theorem pull_advances_cursor st shard_id it before after nxt
    (records : list record) :
  shard_iterators st = before ++ (shard_id, it) :: after ->
  NoDup (dict_keys (shard_iterators st)) ->
  str_truthy it = true ->
  let s := poll_shards clock client before (set_records_found false st) in
  client (length (requests s)) it = Response (Some nxt) records ->
  str_truthy nxt = true ->
  let st1 := fst (poll_cycle clock client st) in
  dict_get shard_id (shard_iterators st1) = Some nxt
  /\ dict_keys (shard_iterators (poll_shard clock client shard_id it s))
     = dict_keys (shard_iterators s)
  /\ (records = [] ->
      ingested (poll_shard clock client shard_id it s) = ingested s)
  /\ snd (poll_cycle clock client st) = false
  /\ (shard_id, nxt) ∈ requested st1 (fst (poll_cycle clock client st1)).
Proof.
  intros Hsplit Hnd Hit s Hresp Hnxt. cbn zeta.
  destruct (poll_cycle_entry clock client st shard_id it before after
              Hsplit Hnd) as [Hentry Hbefore].
  fold s in Hentry, Hbefore.
  rewrite (poll_shard_advanced clock client _ _ _ _ _ Hit Hresp Hnxt)
    in Hentry |- *.
  destruct (advanced_fields clock shard_id it nxt records s) as [Hd _].
  rewrite Hd, dict_get_set_eq in Hentry.
  split; [exact Hentry |].
  split.
  { rewrite Hd, dict_set_keys.
    rewrite bool_decide_eq_true_2; [reflexivity |].
    destruct (decide (shard_id ∈ dict_keys (shard_iterators s)))
      as [Hin | Hout]; [exact Hin |].
    apply dict_get_None in Hout. congruence. }
  split; [intros ->; reflexivity |].
  split.
  { destruct (poll_cycle_stop clock client st) as [Hiff _].
    destruct (snd (poll_cycle clock client st)); [| reflexivity].
    rewrite (proj1 Hiff eq_refl) in Hentry. discriminate. }
  destruct (poll_cycle_fields clock client (fst (poll_cycle clock client st)))
    as [_ Hrq].
  unfold requested. rewrite Hrq, drop_app_length.
  apply list_elem_of_In, filter_In. split.
  - apply list_elem_of_In, dict_get_Some_elem, Hentry.
  - exact Hnxt.
Qed.

(** The flag and the counter of empty responses after a poll: both as they
    were, or the flag set and the counter 0. *)
Lemma process_records_counters shard_id (records : list record) : forall s,
  records_found (process_records clock shard_id records s) = records_found s
  /\ consecutive_empty_responses (process_records clock shard_id records s)
     = consecutive_empty_responses s.
Proof.
  unfold process_records.
  induction records as [| r records IH]; intros s; cbn; [split; reflexivity |].
  destruct (IH (process_record clock shard_id r s)) as [-> ->].
  destruct (process_record_iterators clock shard_id r s) as (_ & _ & -> & ->).
  split; reflexivity.
Qed.

Lemma poll_shard_counters shard_id it s :
  (records_found (poll_shard clock client shard_id it s) = records_found s
   /\ consecutive_empty_responses (poll_shard clock client shard_id it s)
      = consecutive_empty_responses s)
  \/ (records_found (poll_shard clock client shard_id it s) = true
      /\ consecutive_empty_responses (poll_shard clock client shard_id it s)
         = 0).
Proof.
  destruct (poll_shard_cases clock client shard_id it s)
    as [[Hit ->] | [Hit [[_ ->] | [[_ ->] | (nxt & records & _ & _ & ->)]]]].
  - left. split; reflexivity.
  - left. split; reflexivity.
  - left. unfold exhausted. cbn zeta.
    destruct (dict_get shard_id (shard_iterators s)); split; reflexivity.
  - unfold advanced. cbn zeta. destruct records as [| r records].
    + left. split; reflexivity.
    + right.
      destruct (process_records_counters shard_id (r :: records)
        (print (LogReceived (length (r :: records)) shard_id)
           (set_consecutive_empty_responses 0
              (set_records_found true
                 (set_shard_iterators
                    (dict_set shard_id nxt (shard_iterators s))
                    (request shard_id it s)))))) as [-> ->].
      split; reflexivity.
Qed.

Lemma poll_shards_waiting (snapshot : list (string * string)) : forall s,
  waiting_ok s -> waiting_ok (poll_shards clock client snapshot s).
Proof.
  induction snapshot as [| [shard_id it] snapshot IH]; intros s H; [exact H |].
  rewrite poll_shards_cons. apply IH.
  destruct H as [Hrange Hflag]. unfold waiting_ok.
  destruct (poll_shard_counters shard_id it s) as [[-> ->] | [-> ->]].
  - split; assumption.
  - unfold max_empty_responses. split; [lia | reflexivity].
Qed.

Lemma count_empty_cycle_waiting s :
  waiting_ok s ->
  0 <= consecutive_empty_responses (count_empty_cycle s) < max_empty_responses
  /\ (records_found s = true
      -> consecutive_empty_responses (count_empty_cycle s) = 0).
Proof.
  intros [Hrange Hflag]. unfold count_empty_cycle, max_empty_responses in *.
  destruct (records_found s) eqn:Hf.
  - split; [exact Hrange | exact Hflag].
  - cbn. split; [| discriminate].
    destruct (Z.eqb_spec (consecutive_empty_responses s + 1) 1); cbn; [lia |].
    destruct (Z.leb_spec 10 (consecutive_empty_responses s + 1)); cbn; lia.
Qed.

Lemma poll_cycle_waiting st :
  0 <= consecutive_empty_responses st < max_empty_responses ->
  0 <= consecutive_empty_responses (fst (poll_cycle clock client st))
    < max_empty_responses.
Proof.
  intros Hrange.
  assert (Hok : waiting_ok (set_records_found false st))
    by (split; [exact Hrange | discriminate]).
  apply (poll_shards_waiting (shard_iterators st)) in Hok.
  apply count_empty_cycle_waiting in Hok as [Hturn _].
  rewrite poll_cycle_turn. fold (turn clock client st) in Hturn.
  destruct (shard_iterators (turn clock client st)); exact Hturn.
Qed.

(** X5. In every state of every run of the loop the counter of consecutive
    empty responses is at least 0 and below the threshold of 10: it is put
    back to 0 when it reaches the threshold and when a batch arrives. *)
Theorem run_waiting_bounded (n : nat)
    (shards : list (string * option string)) :
  0 <= consecutive_empty_responses
         (fst (poll_loop clock client n (initial_state shards)))
    < 10.
Proof.
  assert (H : forall st,
            0 <= consecutive_empty_responses st < max_empty_responses ->
            0 <= consecutive_empty_responses
                   (fst (poll_loop clock client n st))
              < max_empty_responses).
  { induction n as [| k IH]; intros st Hst; [exact Hst |].
    destruct (snd (poll_cycle clock client st)) eqn:Hstop.
    - rewrite poll_loop_stop by exact Hstop. apply poll_cycle_waiting, Hst.
    - rewrite poll_loop_continue by exact Hstop.
      apply IH, poll_cycle_waiting, Hst. }
  apply H. cbn. unfold max_empty_responses. lia.
Qed.

End AdvanceFacts.

Section AdvanceExamples.
Import Poller.
Local Existing Instance Ascii7.ascii_unicode.
Local Existing Instance Ascii7.library.

Lemma pull_advances_cursor_witness :
  dict_get "shard-1"
    (shard_iterators (fst (poll_cycle Ascii7.noon Ascii7.flaky
                             Ascii7.two_shards)))
  = Some "it-2".
Proof.
  refine (proj1 (pull_advances_cursor Ascii7.noon Ascii7.flaky
                   Ascii7.two_shards "shard-1" "it-1"
                   [("shard-0", "it-0")] [] "it-2" [] _ _ _ _ _)).
  - vm_compute. reflexivity.
  - vm_compute. apply NoDup_cons. split; [| apply NoDup_singleton].
    intros H. apply list_elem_of_singleton in H. discriminate.
  - reflexivity.
  - vm_compute. reflexivity.
  - reflexivity.
Defined.

End AdvanceExamples.

(** ** Windows of a store in order of arrival *)

Section SuffixFacts.
Import Analyzer.
Implicit Types (clock : nat -> Z) (self : SlidingWindowAnalyzer).












(** X9. Asking for more top words extends the answer: with the same
    readings of the clock, the list for [n] is the beginning of the list for
    any [m] that is not smaller. *)
Theorem top_words_prefix {U : Unicode} clock (d n m : Z) self :
  n <= m ->
  get_top_words clock d n self `prefix_of` get_top_words clock d m self.
Proof.
  intros Hnm. unfold get_top_words, most_common.
  destruct (get_messages_in_window clock d self) as [| msg w]; [reflexivity |].
  set (sorted := sorted_desc _).
  replace (take (Z.to_nat n) sorted)
    with (take (Z.to_nat n) (take (Z.to_nat m) sorted)).
  - apply prefix_take.
  - rewrite take_take. f_equal. lia.
Qed.

Lemma top_words_prefix_witness :
  get_top_words (U := Ascii7.ascii_unicode) (fun _ => 400000001) 5 1
    pizza_store
  `prefix_of`
  get_top_words (U := Ascii7.ascii_unicode) (fun _ => 400000001) 5 2
    pizza_store.
Proof.
  apply (top_words_prefix (U := Ascii7.ascii_unicode)). lia.
Defined.

End SuffixFacts.

(** ** The producer script *)

Section RangeFacts.
Import Producer.

(** The values of [range(0, stop, step)]: the multiples of [step] below
    [stop]. *)
Lemma range_from_multiples (step : nat) : forall fuel i stop,
  (0 < step)%nat -> (stop <= i + fuel * step)%nat ->
  range_from fuel i stop step
  = map (fun k => (i + k * step)%nat)
        (seq 0 ((stop - i + (step - 1)) / step)).
Proof.
  intros fuel. induction fuel as [| fuel IH]; intros i stop Hstep Hfuel.
  - cbn. replace (stop - i)%nat with 0%nat by lia.
    rewrite Nat.div_small by lia. reflexivity.
  - cbn [range_from]. destruct (Nat.ltb_spec i stop) as [Hlt | Hge].
    + rewrite IH by (cbn in Hfuel; lia).
      destruct (Nat.le_gt_cases (i + step) stop) as [Hnext | Hlast].
      * replace (stop - i + (step - 1))%nat
          with ((stop - (i + step) + (step - 1)) + 1 * step)%nat by lia.
        rewrite Nat.div_add by lia.
        rewrite Nat.add_1_r. cbn [seq map]. f_equal; [lia |].
        rewrite <- seq_shift, map_map.
        apply map_ext. intros k. lia.
      * replace (stop - (i + step))%nat with 0%nat by lia.
        rewrite (Nat.div_small (0 + (step - 1))) by lia.
        replace (stop - i + (step - 1))%nat
          with ((stop - i - 1) + 1 * step)%nat by lia.
        rewrite Nat.div_add by lia.
        rewrite (Nat.div_small (stop - i - 1)) by lia.
        cbn. f_equal. lia.
    + replace (stop - i)%nat with 0%nat by lia.
      rewrite Nat.div_small by lia. reflexivity.
Qed.

Lemma range_multiples (stop step : nat) :
  (0 < step)%nat ->
  range stop step
  = map (fun k => (k * step)%nat) (seq 0 ((stop + (step - 1)) / step)).
Proof.
  intros Hstep. unfold range. rewrite range_from_multiples by nia.
  rewrite Nat.sub_0_r. reflexivity.
Qed.

(** The slices of the loop, one after the other, give the list back. *)
Lemma slices_concat {A} (records : list A) (step : nat) : forall fuel i,
  (0 < step)%nat -> (length records <= i + fuel * step)%nat ->
  concat (map (fun j => slice records j (j + step))
              (range_from fuel i (length records) step))
  = drop i records.
Proof.
  intros fuel. induction fuel as [| fuel IH]; intros i Hstep Hfuel.
  - cbn. rewrite drop_ge by lia. reflexivity.
  - cbn [range_from]. destruct (Nat.ltb_spec i (length records)) as [Hlt | Hge].
    + cbn [map concat]. rewrite IH by (cbn in Hfuel; lia).
      unfold slice. replace (i + step - i)%nat with step by lia.
      rewrite <- drop_drop. apply take_drop.
    + cbn. rewrite drop_ge by lia. reflexivity.
Qed.

(** X10. The batches of the producer cut the list of reviews into
    consecutive pieces: put together in order they are the list, there are as
    many as the length divided by 50 and rounded up, batch number [k]
    (from 0) is the 50 reviews from position [50 * k] on, or those that are
    left, and no batch is empty. *)
Theorem batches_partition (records : list string) :
  concat (batches records) = records
  /\ length (batches records) = ((length records + 49) / 50)%nat
  /\ forall (k : nat) (b : list string),
       batches records !! k = Some b ->
       b = take 50 (drop (k * 50) records)
       /\ length b = Nat.min 50 (length records - k * 50)
       /\ (1 <= length b)%nat.
Proof.
  unfold batches, batch_size.
  split.
  { unfold range. rewrite slices_concat by lia. reflexivity. }
  rewrite range_multiples by lia. cbn [Nat.sub].
  split.
  { rewrite !length_map, length_seq. reflexivity. }
  intros k b Hk. rewrite map_map in Hk.
  apply list_lookup_fmap_Some in Hk as (j & -> & Hj).
  apply lookup_seq in Hj as [-> Hlt]. cbn [Nat.add] in *.
  unfold slice. replace (k * 50 + 50 - k * 50)%nat with 50%nat by lia.
  split; [reflexivity |].
  rewrite length_take, length_drop.
  pose proof (Nat.div_mod_eq (length records + 49) 50) as Hdiv.
  pose proof (Nat.mod_upper_bound (length records + 49) 50) as Hmod.
  split; lia.
Qed.

End RangeFacts.

(** ** Sending the batches *)

Section StreamFacts.
Import Producer.
Context {Ser : Serializer}.
Variable put : nat -> string -> option string.
Implicit Types (st : state) (rs records : list string).

Lemma put_reviews_raised rs st e :
  raised st = Some e -> fold_left (put_review put) rs st = st.
Proof.
  intros He. induction rs as [| r rs IH]; [reflexivity |].
  cbn. unfold put_review at 2. rewrite He. exact IH.
Qed.

(** The reviews of a list are put in order as long as the calls return. *)
Lemma put_reviews_ok rs : forall st,
  raised st = None ->
  (forall t p, (t < length rs)%nat ->
               put (length (puts st) + t)%nat p = None) ->
  fold_left (put_review put) rs st
  = State (puts st ++ map dumps_text rs) (stdout st) None.
Proof.
  induction rs as [| r rs IH]; intros st Hnone Hput.
  - cbn. rewrite app_nil_r. destruct st. cbn in Hnone. subst. reflexivity.
  - cbn [fold_left]. unfold put_review at 2. rewrite Hnone. cbn zeta.
    pose proof (Hput 0%nat (dumps_text r)) as H0.
    rewrite Nat.add_0_r in H0. rewrite H0 by (cbn; lia).
    rewrite IH; cbn [puts stdout raised]; [| reflexivity |].
    + rewrite <- app_assoc. reflexivity.
    + intros t p Ht. rewrite length_app. cbn [length].
      replace (length (puts st) + 1 + t)%nat
        with (length (puts st) + S t)%nat by lia.
      apply Hput. cbn. lia.
Qed.

(** The first call that raises ends the batch: the reviews before it were
    put, no other is. *)
Lemma put_reviews_fail rs : forall st (t : nat) r e,
  raised st = None ->
  rs !! t = Some r ->
  (forall u p, (u < t)%nat -> put (length (puts st) + u)%nat p = None) ->
  put (length (puts st) + t)%nat (dumps_text r) = Some e ->
  fold_left (put_review put) rs st
  = State (puts st ++ map dumps_text (take t rs)) (stdout st) (Some e).
Proof.
  induction rs as [| r0 rs IH]; intros st t r e Hnone Hr Hok Hfail;
    [discriminate |].
  cbn [fold_left]. unfold put_review at 2. rewrite Hnone. cbn zeta.
  destruct t as [| t].
  - cbn in Hr. injection Hr as ->. rewrite Nat.add_0_r in Hfail.
    rewrite Hfail. rewrite put_reviews_raised with (e := e) by reflexivity.
    cbn. rewrite app_nil_r. reflexivity.
  - pose proof (Hok 0%nat (dumps_text r0)) as H0.
    rewrite Nat.add_0_r in H0. rewrite H0 by lia.
    cbn in Hr.
    rewrite (IH _ t r e); cbn [puts stdout raised]; try reflexivity;
      try assumption.
    + rewrite <- app_assoc. reflexivity.
    + intros u p Hu. rewrite length_app. cbn [length].
      replace (length (puts st) + 1 + u)%nat
        with (length (puts st) + S u)%nat by lia.
      apply Hok. lia.
    + rewrite length_app. cbn [length].
      replace (length (puts st) + 1 + t)%nat
        with (length (puts st) + S t)%nat by lia.
      exact Hfail.
Qed.

Lemma send_batches_raised records (indices : list nat) st e :
  raised st = Some e ->
  fold_left (send_batch put records) indices st = st.
Proof.
  intros He. induction indices as [| i indices IH]; [reflexivity |].
  cbn. unfold send_batch at 2. rewrite He. exact IH.
Qed.

(** The first [k] batches, when every call for them returns. *)
Lemma send_batches_ok records (out : list line) (k : nat) :
  (k * 50 < length records + 50)%nat ->
  (forall i p, (i < k * 50)%nat -> (i < length records)%nat ->
               put i p = None) ->
  fold_left (send_batch put records)
            (map (fun j => (j * 50)%nat) (seq 0 k)) (State [] out None)
  = State (map dumps_text (take (k * 50) records))
          (out ++ map LineBatchSent (seq 1 k)) None.
Proof.
  induction k as [| k IH]; intros Hk Hput.
  - cbn. rewrite app_nil_r. reflexivity.
  - rewrite seq_S, map_app, fold_left_app.
    rewrite IH by (try lia; intros; apply Hput; lia).
    cbn [map fold_left Nat.add]. unfold send_batch. cbn [raised].
    unfold batch_size, slice.
    replace (k * 50 + 50 - k * 50)%nat with 50%nat by lia.
    rewrite put_reviews_ok; cbn [puts stdout raised]; [| reflexivity |].
    + unfold print. cbn [puts stdout raised].
      rewrite <- map_app, take_take_drop.
      rewrite (seq_S k 1), map_app, <- app_assoc. cbn [map].
      rewrite Nat.div_mul by lia.
      replace (k * 50 + 50)%nat with (S k * 50)%nat by lia.
      replace (k + 1)%nat with (1 + k)%nat by lia.
      reflexivity.
    + intros t p Ht. rewrite length_map, length_take.
      rewrite length_take, length_drop in Ht.
      apply Hput; lia.
Qed.

Lemma stream_start (column : list (option string)) :
  stream put column
  = let st :=
      fold_left (send_batch put (omap id column))
        (map (fun j => (j * 50)%nat)
             (seq 0 ((length (omap id column) + 49) / 50)))
        (State [] [LineFetching; LineLoaded (length column); LineStreaming 50]
               None) in
    match raised st with
    | Some _ => st
    | None => print LineComplete st
    end.
Proof.
  unfold stream, batch_size. rewrite range_multiples by lia. reflexivity.
Qed.

(** X11. When every call of [put_record] returns, the script puts one
    payload for every value of the column that is not missing, in the order
    of the column, prints one line for every batch, numbered from 1, and
    ends with the line that the streaming is complete. *)
Theorem stream_all_sent (column : list (option string)) :
  (forall i p, (i < length (omap id column))%nat -> put i p = None) ->
  stream put column
  = State (map dumps_text (omap id column))
          ([LineFetching; LineLoaded (length column); LineStreaming 50]
           ++ map LineBatchSent
                  (seq 1 ((length (omap id column) + 49) / 50))
           ++ [LineComplete])
          None.
Proof.
  intros Hput. rewrite stream_start. cbn zeta.
  set (records := omap id column) in *.
  pose proof (Nat.div_mod_eq (length records + 49) 50) as Hdiv.
  pose proof (Nat.mod_upper_bound (length records + 49) 50) as Hmod.
  rewrite send_batches_ok by (try lia; intros; apply Hput; lia).
  cbn [raised]. unfold print. cbn [puts stdout raised].
  rewrite take_ge by lia. rewrite <- app_assoc. reflexivity.
Qed.

(** X12. When call number [j] of [put_record] is the first that raises,
    the script ends there: the payloads of the first [j] reviews were put, in
    order, and no other; the batches before the one of review [j] were
    reported, and neither that batch nor the end of the streaming is. *)
Theorem stream_stops_at_failure (column : list (option string))
    (j : nat) (r e : string) :
  omap id column !! j = Some r ->
  (forall i p, (i < j)%nat -> put i p = None) ->
  put j (dumps_text r) = Some e ->
  stream put column
  = State (map dumps_text (take j (omap id column)))
          ([LineFetching; LineLoaded (length column); LineStreaming 50]
           ++ map LineBatchSent (seq 1 (j / 50)))
          (Some e).
Proof.
  intros Hr Hok Hfail. rewrite stream_start. cbn zeta.
  set (records := omap id column) in *.
  pose proof (lookup_lt_Some _ _ _ Hr) as Hj.
  pose proof (Nat.div_mod_eq (length records + 49) 50) as Hdiv.
  pose proof (Nat.mod_upper_bound (length records + 49) 50) as Hmod.
  pose proof (Nat.div_mod_eq j 50) as Hjdiv.
  pose proof (Nat.mod_upper_bound j 50) as Hjmod.
  set (K := ((length records + 49) / 50)%nat) in *.
  set (kf := (j / 50)%nat) in *.
  set (t := (j mod 50)%nat) in *.
  assert (Hkf : (kf < K)%nat) by nia.
  replace K with (kf + S (K - kf - 1))%nat by lia.
  rewrite seq_app, map_app, fold_left_app. cbn [seq map fold_left Nat.add].
  rewrite send_batches_ok by (try lia; intros; apply Hok; lia).
  assert (Hlen : length (map dumps_text (take (kf * 50) records))
                 = (kf * 50)%nat)
    by (rewrite length_map, length_take; lia).
  assert (Hbatch :
    send_batch put records
      (State (map dumps_text (take (kf * 50) records))
             ([LineFetching; LineLoaded (length column); LineStreaming 50]
              ++ map LineBatchSent (seq 1 kf)) None) (kf * 50)
    = State (map dumps_text (take j records))
            ([LineFetching; LineLoaded (length column); LineStreaming 50]
             ++ map LineBatchSent (seq 1 kf)) (Some e)).
  { unfold send_batch. cbn [raised]. unfold batch_size, slice.
    replace (kf * 50 + 50 - kf * 50)%nat with 50%nat by lia.
    rewrite (put_reviews_fail _ _ t r e); cbn [puts stdout raised].
    - f_equal. rewrite <- map_app. f_equal.
      rewrite take_take, Nat.min_l by lia.
      rewrite take_take_drop. f_equal. lia.
    - reflexivity.
    - rewrite lookup_take_lt by lia. rewrite lookup_drop.
      replace (kf * 50 + t)%nat with j by lia. exact Hr.
    - intros u p Hu. rewrite Hlen. apply Hok. lia.
    - rewrite Hlen. replace (kf * 50 + t)%nat with j by lia. exact Hfail. }
  rewrite Hbatch.
  rewrite send_batches_raised with (e := e) by reflexivity.
  reflexivity.
Qed.

End StreamFacts.

Section StreamExamples.
Import Producer.
Local Existing Instance plain_serializer.
Local Existing Instance Ascii7.ascii_unicode.
Local Existing Instance Ascii7.library.

Lemma stream_all_sent_witness :
  puts (stream sink [Some "great service"; None; Some "fine"])
  = [Ascii7.text_object "great service"; Ascii7.text_object "fine"].
Proof.
  exact (f_equal puts
           (stream_all_sent sink [Some "great service"; None; Some "fine"]
              (fun _ _ _ => eq_refl))).
Defined.

Lemma stream_stops_at_failure_witness :
  puts (stream throttled [Some "great service"; None; Some "fine"])
  = [Ascii7.text_object "great service"].
Proof.
  refine (f_equal puts
            (stream_stops_at_failure throttled
               [Some "great service"; None; Some "fine"] 1 "fine"
               "throttled" _ _ _)).
  - reflexivity.
  - intros i p Hi. assert (i = 0%nat) as -> by lia. reflexivity.
  - reflexivity.
Defined.

(** Sixty reviews go out in two batches. *)
Example stream_sixty :
  let st := stream sink (replicate 60 (Some "fine")) in
  length (puts st) = 60%nat
  /\ stdout st
     = [LineFetching; LineLoaded 60; LineStreaming 50; LineBatchSent 1;
        LineBatchSent 2; LineComplete].
Proof. vm_compute. split; reflexivity. Qed.

End StreamExamples.

(** ** From the producer to the dashboard *)

Section EndToEnd.
Import Poller.
Context {U : Unicode} {L : Library} {Ser : Producer.Serializer}.
Variable clock : nat -> Z.

Lemma produced_review_text (review : string) :
  round_trip review ->
  review_text (produced review)
  = if str_truthy review then Some review else None.
Proof.
  intros [Hdec Hjson]. unfold review_text, produced, decode. cbn [Data].
  rewrite Hdec, Hjson, lookup_insert_eq. reflexivity.
Qed.

Lemma produced_texts (reviews : list string) :
  Forall round_trip reviews ->
  omap review_text (map produced reviews) = List.filter str_truthy reviews.
Proof.
  induction 1 as [| r rs Hr _ IH]; [reflexivity |].
  cbn [map List.filter].
  change (omap review_text (produced r :: map produced rs))
    with (match review_text (produced r) with
          | Some s => s :: omap review_text (map produced rs)
          | None => omap review_text (map produced rs)
          end).
  rewrite (produced_review_text r Hr), IH.
  destruct (str_truthy r); reflexivity.
Qed.

(** X13. What the producer puts, the dashboard ingests: when the codec and
    the parser undo the serialization of the reviews of a batch, the reviews
    of the dashboard gain the texts of the batch that are not empty, as they
    were produced and in their order, and the total grows by their number;
    the empty texts are dropped. *)
Theorem produced_batch_ingested shard_id (batch : list string) (st : state) :
  Forall round_trip batch ->
  let st' := process_records clock shard_id (map produced batch) st in
  map Analyzer.text (Poller.reviews st')
  = map Analyzer.text (Poller.reviews st)
    ++ map Some (List.filter str_truthy batch)
  /\ total_reviews st'
     = total_reviews st
       + Z.of_nat (length (List.filter str_truthy batch)).
Proof.
  intros Hrt. cbn zeta.
  destruct (process_records_texts clock shard_id (map produced batch) st)
    as [-> ->].
  rewrite (produced_texts batch Hrt). split; reflexivity.
Qed.

End EndToEnd.

Section EndToEndExamples.
Import Poller.
Local Existing Instance plain_serializer.
Local Existing Instance Ascii7.ascii_unicode.
Local Existing Instance Ascii7.library.

Lemma produced_batch_ingested_witness :
  total_reviews
    (process_records Ascii7.noon "shard-0"
       (map produced ["great service"; ""]) Ascii7.empty_state)
  = total_reviews Ascii7.empty_state
    + Z.of_nat (length (List.filter str_truthy ["great service"; ""])).
Proof.
  refine (proj2 (produced_batch_ingested Ascii7.noon "shard-0"
                   ["great service"; ""] Ascii7.empty_state _)).
  repeat constructor.
Defined.

End EndToEndExamples.

(** ** The consumer script *)

Section ConsumerFacts.
Import Consumer.
Context {L : Poller.Library}.
Variable get_records : nat -> option string -> response.
Implicit Types (st : state) (records : list Poller.record).

Lemma print_records_stopped records st :
  progress st <> Running -> fold_left print_record records st = st.
Proof.
  intros H. induction records as [| r records IH]; [reflexivity |].
  cbn. unfold print_record at 2.
  destruct (progress st) eqn:E; [contradiction | exact IH | exact IH].
Qed.

(** Records that decode are printed in order. *)
Lemma print_records_ok records : forall it out cs,
  Forall (fun r => is_Some (data_text r)) records ->
  fold_left print_record records (State it out cs Running)
  = State it (out ++ map LineRecord (omap data_text records)) cs Running.
Proof.
  induction records as [| r records IH]; intros it out cs Hall.
  - cbn. rewrite app_nil_r. reflexivity.
  - apply Forall_cons in Hall as [[text Hr] Hall].
    cbn [fold_left]. unfold print_record at 2. cbn [progress].
    change (omap data_text (r :: records))
      with (match data_text r with
            | Some s => s :: omap data_text records
            | None => omap data_text records
            end).
    rewrite Hr. cbn [shard_iterator stdout calls].
    rewrite IH by exact Hall. rewrite <- app_assoc. reflexivity.
Qed.

(** The first record that does not decode ends the printing. *)
Lemma print_records_crash (before after : list Poller.record) bad :
  forall it out cs,
  Forall (fun r => is_Some (data_text r)) before ->
  data_text bad = None ->
  fold_left print_record (before ++ bad :: after) (State it out cs Running)
  = State it (out ++ map LineRecord (omap data_text before)) cs Crashed.
Proof.
  intros it out cs Hall Hbad.
  rewrite fold_left_app, print_records_ok by exact Hall.
  cbn [fold_left]. unfold print_record at 2. cbn [progress].
  rewrite Hbad. apply print_records_stopped. discriminate.
Qed.

Lemma loop_stopped (n : nat) st :
  progress st <> Running -> loop get_records n st = st.
Proof.
  intros H. induction n as [| n IH]; [reflexivity |].
  cbn. unfold turn at 1.
  destruct (progress st) eqn:E; [contradiction | exact IH | exact IH].
Qed.

Lemma serves_all (script : list (option string * list Poller.record)) :
  forall (n : nat) it out cs,
  serves get_records (length cs) it script ->
  (length script < n)%nat ->
  exists next,
    loop get_records n (State it out cs Running)
    = State next
        (out ++ map LineRecord (omap data_text (concat (map snd script)))
             ++ [LineNoNewRecords])
        (cs ++ it :: map fst script) Finished.
Proof.
  induction script as [| [next records] script IH];
    intros n it out cs Hserves Hn.
  - destruct n as [| n]; [cbn in Hn; lia |].
    destruct Hserves as [next Hlast]. exists next.
    cbn [loop]. unfold turn. cbn [progress calls shard_iterator stdout].
    rewrite Hlast. cbn. apply loop_stopped. discriminate.
  - destruct n as [| n]; [cbn in Hn; lia |].
    destruct Hserves as (Hne & Hresp & Hall & Hrest).
    cbn [loop]. unfold turn at 1.
    cbn [progress calls shard_iterator stdout].
    rewrite Hresp. cbn zeta. rewrite print_records_ok by exact Hall.
    cbn [progress]. destruct records as [| r records]; [contradiction |].
    destruct (IH n next (out ++ map LineRecord
                                  (omap data_text (r :: records)))
                 (cs ++ [it])) as [last Hloop].
    + rewrite length_app. cbn [length]. rewrite Nat.add_1_r. exact Hrest.
    + cbn in Hn. lia.
    + exists last. rewrite Hloop. f_equal.
      * cbn [map snd concat]. rewrite omap_app, map_app, <- !app_assoc.
        reflexivity.
      * rewrite <- app_assoc. reflexivity.
Qed.

(** X14. When the source answers with batches of decodable records, each
    with a next iterator (null or not), and then with an empty batch, the
    script prints every record of every batch, in order, then the line that
    there are no new records, and stops: it has made one call for each batch
    and one for the empty one, each with the iterator that the call before
    returned. *)
Theorem consume_prints_all (turns : nat) (first : string)
    (script : list (option string * list Poller.record)) :
  serves get_records 0 (Some first) script ->
  (length script < turns)%nat ->
  exists next,
    consume get_records turns (Some first)
    = State next
        ([LineChecking]
         ++ map LineRecord (omap data_text (concat (map snd script)))
         ++ [LineNoNewRecords])
        (Some first :: map fst script) Finished.
Proof.
  intros Hserves Hturns. unfold consume.
  apply (serves_all script turns (Some first) [LineChecking] []);
    assumption.
Qed.

(** X15. The script has no handler: a record whose data do not decode
    ends it. The records of the batch before that one are printed, those
    after it are not, and no other call is made, however many turns are
    left. *)
Theorem consume_stops_at_bad_record (turns : nat) st next
    (before after : list Poller.record) bad :
  progress st = Running ->
  get_records (length (calls st)) (shard_iterator st)
  = Response (Some next) (Some (before ++ bad :: after)) ->
  Forall (fun r => is_Some (data_text r)) before ->
  data_text bad = None ->
  loop get_records (S turns) st
  = State next (stdout st ++ map LineRecord (omap data_text before))
          (calls st ++ [shard_iterator st]) Crashed.
Proof.
  intros Hrun Hresp Hall Hbad. cbn [loop]. unfold turn at 1.
  rewrite Hrun, Hresp. cbn zeta.
  rewrite print_records_crash by assumption.
  cbn [progress]. apply loop_stopped. discriminate.
Qed.

End ConsumerFacts.

Section ConsumerExamples.
Import Consumer.
Local Existing Instance Ascii7.library.

Lemma consume_prints_all_witness :
  exists next,
    consume two_batches 5 (Some "it-0")
    = State next
        ([LineChecking]
         ++ map LineRecord
              (omap data_text
                 (concat (map snd [(Some "it-1",
                                    [Ascii7.body "one"; Ascii7.body "two"]);
                                   (None, [Ascii7.body "three"])])))
         ++ [LineNoNewRecords])
        (Some "it-0" :: map fst [(Some "it-1",
                                  [Ascii7.body "one"; Ascii7.body "two"]);
                                 (None, [Ascii7.body "three"])])
        Finished.
Proof.
  apply (consume_prints_all two_batches 5 "it-0"
           [(Some "it-1", [Ascii7.body "one"; Ascii7.body "two"]);
            (None, [Ascii7.body "three"])]).
  - cbn [serves]. split; [discriminate |]. split; [reflexivity |].
    split; [repeat constructor; eexists; reflexivity |].
    split; [discriminate |]. split; [reflexivity |].
    split; [repeat constructor; eexists; reflexivity |].
    exists None. reflexivity.
  - cbn. lia.
Defined.

Example consume_two_batches :
  consume two_batches 5 (Some "it-0")
  = State None
      [LineChecking; LineRecord "one"; LineRecord "two"; LineRecord "three";
       LineNoNewRecords]
      [Some "it-0"; Some "it-1"; None] Finished.
Proof. vm_compute. reflexivity. Qed.

Lemma consume_stops_at_bad_record_witness :
  loop broken_batch 3 (State (Some "it-0") [LineChecking] [] Running)
  = State (Some "it-1") [LineChecking; LineRecord "one"] [Some "it-0"]
          Crashed.
Proof.
  refine (consume_stops_at_bad_record broken_batch 2
            (State (Some "it-0") [LineChecking] [] Running) (Some "it-1")
            [Ascii7.body "one"] [Ascii7.body "two"] (Poller.Rec None)
            _ _ _ _).
  - reflexivity.
  - reflexivity.
  - repeat constructor. eexists. reflexivity.
  - reflexivity.
Defined.

End ConsumerExamples.

(** ** The start of the polling *)

Section StartupFacts.
Import Poller Startup.

(** The loop of lines 469-482 from a dictionary [d]. *)
Lemma iterators_fold_empty (calls : list (string * option string)) :
  forall d : list (string * string),
  fold_left (fun d '(shard_id, it) =>
               match it with Some i => dict_set shard_id i d | None => d end)
            calls d = []
  <-> d = [] /\ Forall (fun c => snd c = None) calls.
Proof.
  induction calls as [| [shard_id [it |]] calls IH]; intros d; cbn.
  - split; [intros ->; split; [reflexivity | constructor] | tauto].
  - rewrite IH. split.
    + intros [Hset _]. destruct d as [| [k v] d]; cbn in Hset;
        [discriminate |]. destruct (decide (k = shard_id)); discriminate.
    + intros [_ Hall]. apply Forall_cons in Hall as [Hnone _].
      discriminate.
  - rewrite IH. split.
    + intros [-> Hall]. split; [reflexivity |]. constructor; auto.
    + intros [-> Hall]. apply Forall_cons in Hall as [_ Hall]. auto.
Qed.

Lemma initial_iterators_empty (calls : list (string * option string)) :
  initial_iterators calls = [] <-> Forall (fun c => snd c = None) calls.
Proof.
  unfold initial_iterators. rewrite iterators_fold_empty. tauto.
Qed.

Lemma iterators_fold_get (calls : list (string * option string)) id :
  forall d : list (string * string),
  NoDup (map fst calls) ->
  dict_get id
    (fold_left (fun d '(shard_id, it) =>
                  match it with
                  | Some i => dict_set shard_id i d
                  | None => d
                  end) calls d)
  = match dict_get id calls with
    | Some (Some it) => Some it
    | _ => dict_get id d
    end.
Proof.
  induction calls as [| [shard_id o] calls IH]; intros d Hnd; [reflexivity |].
  cbn in Hnd. apply NoDup_cons in Hnd as [Hfresh Hnd].
  cbn [fold_left dict_get]. rewrite IH by exact Hnd.
  destruct (decide (shard_id = id)) as [-> | Hne].
  - assert (Hnone : dict_get id calls = None)
      by (apply dict_get_None; exact Hfresh).
    rewrite Hnone. destruct o as [it |]; [| reflexivity].
    apply dict_get_set_eq.
  - destruct (dict_get id calls) as [[it |] |]; try reflexivity;
      destruct o as [it' |]; try reflexivity;
      apply dict_get_set_ne; exact Hne.
Qed.

Lemma iterator_calls_keys (env : aws) (shards : list string) :
  map fst (iterator_calls env shards) = shards.
Proof.
  unfold iterator_calls. generalize (get_shard_iterator env). intros f.
  revert f. induction shards as [| s shards IH]; intros f; [reflexivity |].
  cbn. f_equal. apply (IH (fun i => f (S i))).
Qed.

Lemma iterator_calls_lookup (env : aws) (shards : list string) (i : nat) :
  iterator_calls env shards !! i
  = (fun id => (id, get_shard_iterator env i id)) <$> shards !! i.
Proof. apply list_lookup_imap. Qed.

Lemma iterator_calls_get (env : aws) (shards : list string) (i : nat) id :
  NoDup shards ->
  shards !! i = Some id ->
  dict_get id (iterator_calls env shards)
  = Some (get_shard_iterator env i id).
Proof.
  intros Hnd Hi. apply dict_elem_get.
  - unfold dict_keys. rewrite iterator_calls_keys. exact Hnd.
  - apply list_elem_of_lookup. exists i.
    etransitivity; [apply iterator_calls_lookup |].
    rewrite Hi. reflexivity.
Qed.

(** X16. The start reaches the loop exactly when the client is created,
    the credentials are accepted, the stream is described as ACTIVE and at
    least one of its shards yields an iterator; the loop then starts in its
    first state, with the status "Connected". In every other case the
    function ends before any record is asked for. *)
Theorem startup_listens_iff (env : aws) (st : state) :
  snd (startup env) = Listening st
  <-> kinesis_client env = None
      /\ (exists user, caller_identity env = inl user)
      /\ exists shards,
           describe_stream env = Description "ACTIVE" shards
           /\ (exists (i : nat) id it,
                 shards !! i = Some id
                 /\ get_shard_iterator env i id = Some it)
           /\ st = initial_state (iterator_calls env shards).
Proof.
  unfold startup.
  destruct (kinesis_client env) as [e |].
  { split; [discriminate | intros [H _]; discriminate]. }
  destruct (caller_identity env) as [user | e].
  2: { split; [discriminate | intros (_ & [u Hu] & _); discriminate]. }
  destruct (describe_stream env) as [code msg | e | status shards].
  { destruct (String.eqb code _);
      (split; [discriminate | intros (_ & _ & s & Hs & _); discriminate]). }
  { split; [discriminate | intros (_ & _ & s & Hs & _); discriminate]. }
  cbn zeta.
  destruct (String.eqb_spec status "ACTIVE") as [-> | Hstatus]; cbn [negb].
  2: { split; [discriminate |].
       intros (_ & _ & s & Hs & _). congruence. }
  destruct shards as [| s0 shards].
  { split; [discriminate |].
    intros (_ & _ & s & Hs & (i & id & it & Hi & _) & _).
    injection Hs as <-. discriminate. }
  destruct (initial_iterators (iterator_calls env (s0 :: shards)))
    as [| kv d] eqn:Hinit.
  - split; [discriminate |].
    intros (_ & _ & s & Hs & (i & id & it & Hi & Hit) & _).
    injection Hs as <-.
    apply initial_iterators_empty in Hinit.
    rewrite Forall_forall in Hinit.
    specialize (Hinit (id, get_shard_iterator env i id)).
    cbn [snd] in Hinit. rewrite Hit in Hinit.
    assert (Some it = None); [| discriminate].
    apply Hinit. apply list_elem_of_lookup. exists i.
    etransitivity; [apply iterator_calls_lookup |].
    rewrite Hi. cbn. rewrite Hit. reflexivity.
  - cbn [snd]. split.
    + intros [= <-]. split; [reflexivity |]. split; [eauto |].
      exists (s0 :: shards). split; [reflexivity |]. split; [| reflexivity].
      destruct (decide (Forall (fun c : string * option string
                                  => snd c = None)
                               (iterator_calls env (s0 :: shards))))
        as [Hall | Hsome].
      * apply initial_iterators_empty in Hall. congruence.
      * apply not_Forall_Exists in Hsome; [| intros c; apply _].
        apply Exists_exists in Hsome as ([id o] & Hin & Ho).
        apply list_elem_of_lookup in Hin as [i Hi].
        pose proof (eq_trans (eq_sym (iterator_calls_lookup env _ i)) Hi)
          as Hi'. clear Hi. rename Hi' into Hi.
        destruct ((s0 :: shards) !! i) as [id' |] eqn:Hid; [| discriminate].
        cbn in Hi. injection Hi as <- <-.
        destruct (get_shard_iterator env i id') as [it |] eqn:Hit;
          [| cbn in Ho; congruence].
        exists i, id', it. split; [exact Hid | exact Hit].
    + intros (_ & _ & s & Hs & _ & ->). injection Hs as <-. reflexivity.
Qed.

Lemma startup_listening (env : aws) (st : state) :
  snd (startup env) = Listening st ->
  exists shards,
    describe_stream env = Description "ACTIVE" shards
    /\ st = initial_state (iterator_calls env shards).
Proof.
  unfold startup.
  destruct (kinesis_client env) as [e |]; [discriminate |].
  destruct (caller_identity env) as [user | e]; [| discriminate].
  destruct (describe_stream env) as [code msg | e | status shards];
    [destruct (String.eqb code _); discriminate | discriminate |].
  cbn zeta.
  destruct (String.eqb_spec status "ACTIVE") as [-> | Hstatus]; cbn [negb];
    [| discriminate].
  destruct shards as [| s0 shards]; [discriminate |].
  destruct (initial_iterators (iterator_calls env (s0 :: shards)));
    [discriminate |].
  cbn [snd]. intros [= <-]. eauto.
Qed.

(** X17. After a start that reaches the loop, and the shard identifiers
    being distinct, the dictionary of iterators has for every shard the
    iterator that its call returned, nothing for a shard whose call raised,
    and nothing for any other identifier. *)
Theorem startup_iterators (env : aws) (st : state) status
    (shards : list string) :
  describe_stream env = Description status shards ->
  snd (startup env) = Listening st ->
  NoDup shards ->
  (forall (i : nat) id,
     shards !! i = Some id ->
     dict_get id (shard_iterators st) = get_shard_iterator env i id)
  /\ (forall id, id ∉ shards -> dict_get id (shard_iterators st) = None).
Proof.
  intros Hdesc Hlisten Hnd.
  destruct (startup_listening env st Hlisten) as (shards' & Hd & ->).
  rewrite Hdesc in Hd. injection Hd as _ <-.
  cbn [initial_state shard_iterators]. unfold initial_iterators.
  assert (Hkeys : NoDup (map fst (iterator_calls env shards)))
    by (rewrite iterator_calls_keys; exact Hnd).
  split.
  - intros i id Hi. rewrite iterators_fold_get by exact Hkeys.
    rewrite (iterator_calls_get env shards i id Hnd Hi).
    destruct (get_shard_iterator env i id); reflexivity.
  - intros id Hid. rewrite iterators_fold_get by exact Hkeys.
    assert (Hnone : dict_get id (iterator_calls env shards) = None).
    { apply dict_get_None. unfold dict_keys.
      rewrite iterator_calls_keys. exact Hid. }
    rewrite Hnone. reflexivity.
Qed.

End StartupFacts.

Section StartupExamples.
Import Poller Startup.

Lemma startup_listens_iff_witness :
  snd (startup ready)
  = Listening (initial_state (iterator_calls ready ["shard-0"; "shard-1"])).
Proof.
  apply (proj2 (startup_listens_iff ready _)).
  split; [reflexivity |]. split; [eexists; reflexivity |].
  exists ["shard-0"; "shard-1"]. split; [reflexivity |].
  split; [| reflexivity].
  exists 0%nat, "shard-0", "it-0". split; reflexivity.
Defined.

Lemma startup_iterators_witness :
  dict_get "shard-0"
    (shard_iterators
       (initial_state (iterator_calls ready ["shard-0"; "shard-1"])))
  = get_shard_iterator ready 0 "shard-0".
Proof.
  refine (proj1 (startup_iterators ready _ "ACTIVE" ["shard-0"; "shard-1"]
                   _ _ _) 0%nat "shard-0" _).
  - reflexivity.
  - reflexivity.
  - apply NoDup_cons. split; [| apply NoDup_singleton].
    intros H. apply list_elem_of_singleton in H. discriminate.
  - reflexivity.
Defined.

(** The lines of a start that reaches the loop, and of one that finds the
    stream missing. *)
Example startup_ready_lines :
  fst (startup ready)
  = [LineInitializing; LineIdentity "AIDAEXAMPLE";
     LineChecking "review-stream"; LineStreamFound "ACTIVE"; LineShards 2;
     LineSettingUp "shard-0"; LineIteratorObtained "shard-0";
     LineSettingUp "shard-1"; LineIteratorError "shard-1"; LineListening].
Proof. vm_compute. reflexivity. Qed.

Example startup_missing_stream :
  startup (Aws None (inl "AIDAEXAMPLE")
             (ClientError "ResourceNotFoundException" "not found")
             (fun _ _ => None))
  = ([LineInitializing; LineIdentity "AIDAEXAMPLE";
      LineChecking "review-stream"; LineNotFound "review-stream"],
     Stopped "Stream 'review-stream' not found").
Proof. vm_compute. reflexivity. Qed.

End StartupExamples.

(** ** The routes *)

Section RoutesFacts.
Context {U : Unicode} {R : Routes.Rendering}.



Lemma sentiment_data_stats clock d self :
  exists chart,
    Routes.sentiment_data (Analyzer.get_sentiment_stats clock d self)
    = Some chart
    /\ (chart = Poller.JArr []
        <-> Analyzer.get_messages_in_window clock d self = []).
Proof.
  destruct (sentiment_stats_values clock d self) as (Hp & Hn & Hu & Ht).
  unfold Routes.sentiment_data. rewrite Ht. cbn [mbind option_bind].
  destruct (Analyzer.get_messages_in_window clock d self) as [| m w] eqn:E.
  - cbn. eexists. split; [reflexivity |]. tauto.
  - change (0 <? length (m :: w))%nat with true. cbv iota.
    rewrite Hp, Hn, Hu. cbn [mbind option_bind].
    eexists. split; [reflexivity |]. split; discriminate.
Qed.

Lemma zip_unzip {A B} (l : list (A * B)) :
  zip (map fst l) (map snd l) = l.
Proof. induction l as [| [a b] l IH]; cbn; [| rewrite IH]; reflexivity. Qed.

Lemma json_strings_words (ws : list string) :
  Routes.json_strings (Poller.JArr (map Poller.JStr ws)) = Some ws.
Proof.
  unfold Routes.json_strings.
  induction ws as [| w ws IH]; [reflexivity |].
  cbn. cbn in IH. rewrite IH. reflexivity.
Qed.

Lemma json_counts_counts (ns : list nat) :
  Routes.json_counts (Poller.JArr (map Routes.json_nat ns)) = Some ns.
Proof.
  unfold Routes.json_counts.
  induction ns as [| n ns IH]; [reflexivity |].
  cbn. cbn in IH. rewrite IH. cbn. rewrite Nat2Z.id. reflexivity.
Qed.



(** X20.  The bar chart loses nothing: reading the words of ['y'] with the
    counts of ['x'] back from [top_words_data] gives the list of top words
    again, in its order; the chart is the empty list exactly when there
    are no top words. *)
Theorem top_words_chart_round_trip (top_words : list (string * nat)) :
  Routes.chart_bars (Routes.top_words_data top_words) = Some top_words
  /\ (Routes.top_words_data top_words = Poller.JArr [] <-> top_words = []).
Proof.
  destruct top_words as [| b l]; [cbn; split; [reflexivity | split; reflexivity] |].
  split; [| split; discriminate].
  unfold Routes.top_words_data, Routes.unzip, Routes.chart_bars.
  cbv iota beta zeta.
  rewrite lookup_insert_eq. rewrite lookup_insert_ne by done.
  rewrite lookup_insert_eq.
  cbn [mbind option_bind]. rewrite json_strings_words.
  cbn [mbind option_bind]. rewrite json_counts_counts.
  cbn [mbind option_bind]. rewrite zip_unzip. reflexivity.
Qed.

(** X21.  The pie chart of a window never fails on a missing key, and it is
    the empty list exactly when no message lies in the window. *)
Theorem sentiment_chart_empty_iff (clock : nat -> Z) (d : Z)
    (self : Analyzer.SlidingWindowAnalyzer) :
  exists chart,
    Routes.sentiment_data (Analyzer.get_sentiment_stats clock d self)
    = Some chart
    /\ (chart = Poller.JArr []
        <-> Analyzer.get_messages_in_window clock d self = []).
Proof. apply sentiment_data_stats. Qed.

(** X22.  When the window holds messages, the three slices of the pie chart
    are the numbers of messages labelled Positive, Negative and Neutral
    (a message without label counts as Neutral); together with the
    messages that carry any other label they add up to the size of the
    window, so the slices cover the window only when no such label
    occurs. *)
Theorem pie_slices_sum (clock : nat -> Z) (d : Z)
    (self : Analyzer.SlidingWindowAnalyzer) :
  let window := Analyzer.get_messages_in_window clock d self in
  window <> [] ->
  exists chart positive negative neutral,
    Routes.sentiment_data (Analyzer.get_sentiment_stats clock d self)
    = Some chart
    /\ Routes.pie_values chart = Some [positive; negative; neutral]
    /\ positive = count_label (label_is "Positive") window
    /\ negative = count_label (label_is "Negative") window
    /\ neutral = count_label label_neutral window
    /\ (positive + negative + neutral
        + count_label label_unknown window = length window)%nat.
Proof.
  intros window Hne.
  destruct (sentiment_stats_values clock d self) as (Hp & Hn & Hu & Ht).
  fold window in Hp, Hn, Hu, Ht.
  unfold Routes.sentiment_data. rewrite Ht. cbn [mbind option_bind].
  destruct (Nat.ltb_spec 0 (length window)) as [_ | Hzero];
    [| destruct window; [contradiction | cbn in Hzero; lia]].
  rewrite Hp, Hn, Hu. cbn [mbind option_bind].
  eexists _, _, _, _. split; [reflexivity |].
  split.
  - unfold Routes.pie_values. rewrite lookup_insert_eq.
    cbn [mbind option_bind].
    apply (json_counts_counts [_; _; _]).
  - repeat split. symmetry. apply labels_partition.
Qed.

End RoutesFacts.

Lemma pie_slices_sum_witness :
  exists chart positive negative neutral,
    Routes.sentiment_data
      (Analyzer.get_sentiment_stats (fun _ => 400000001) 5
         (add_messages [(400000000, Ascii7.no_message)] Analyzer.init))
    = Some chart
    /\ Routes.pie_values chart = Some [positive; negative; neutral]
    /\ positive
       = count_label (label_is "Positive")
           (Analyzer.get_messages_in_window (fun _ => 400000001) 5
              (add_messages [(400000000, Ascii7.no_message)] Analyzer.init))
    /\ negative
       = count_label (label_is "Negative")
           (Analyzer.get_messages_in_window (fun _ => 400000001) 5
              (add_messages [(400000000, Ascii7.no_message)] Analyzer.init))
    /\ neutral
       = count_label label_neutral
           (Analyzer.get_messages_in_window (fun _ => 400000001) 5
              (add_messages [(400000000, Ascii7.no_message)] Analyzer.init))
    /\ (positive + negative + neutral
        + count_label label_unknown
            (Analyzer.get_messages_in_window (fun _ => 400000001%Z) 5%Z
               (add_messages [(400000000%Z, Ascii7.no_message)]
                  Analyzer.init))
        = length
            (Analyzer.get_messages_in_window (fun _ => 400000001%Z) 5%Z
               (add_messages [(400000000%Z, Ascii7.no_message)]
                  Analyzer.init)))%nat.
Proof.
  refine (pie_slices_sum (fun _ => 400000001) 5
            (add_messages [(400000000, Ascii7.no_message)] Analyzer.init) _).
  vm_compute. discriminate.
Defined.

(** The page of a store of twelve reviews: the ten newest, newest first. *)
Example index_page_of_twelve :
  let review (i : Z) :=
    Analyzer.set_actual_timestamp i Ascii7.no_message in
  let st :=
    Poller.State [] (map review [1; 2; 3; 4; 5; 6; 7; 8; 9; 10; 11; 12])
      Analyzer.init 12 "Connected" false 0 [] [] 0 in
  Routes.page_reviews
    <$> Routes.index (R := plain_rendering) (U := Ascii7.ascii_unicode)
          (fun _ => 0) (fun _ => 0) (fun _ => 0) st
  = Some (map review [12; 11; 10; 9; 8; 7; 6; 5; 4; 3]).
Proof. vm_compute. reflexivity. Qed.
